(** * Storefront retrieval client ([_shop_getter.py]): model and properties

    The script exchanges a stored session cookie for bearer tokens, resolves
    an account identifier and a client version, and fetches the storefront
    document, trying three endpoint variants in turn.

    The model is a shallow embedding.  Python [str] values are represented by
    their UTF-8 encoding ([string] is a list of bytes); the strings of a
    decoded JSON document can hold a lone surrogate, which has no UTF-8
    encoding and is kept as the three bytes of its code point; decoded JSON
    documents are values of [pyvalue]; the effects of the script (requests
    sent through
    the [requests] session, the session's cookie jar, lines printed on a
    UTF-8 standard output) are threaded through an explicit state, and Python
    exceptions travel in the
    result of a small state-and-exception monad. *)

From Stdlib Require Import String Ascii ZArith List Lia Bool.
From Stdlib Require Import DecimalString DecimalZ DecimalPos.
Import ListNotations.
Local Open Scope string_scope.
Local Open Scope Z_scope.
#[local] Set Warnings "-register-all".

(** ** Strings *)

Module Str.

(** [f"{n}"] for a Python [int]. *)
Definition format_int (n : Z) : string := NilZero.string_of_int (Z.to_int n).

(** [Some rest] when [s = lit ++ rest]. *)
Fixpoint strip_literal (lit s : string) : option string :=
  match lit with
  | EmptyString => Some s
  | String a lit' =>
      match s with
      | EmptyString => None
      | String b s' => if Ascii.eqb a b then strip_literal lit' s' else None
      end
  end.

Fixpoint rev_append (s acc : string) : string :=
  match s with
  | EmptyString => acc
  | String c s' => rev_append s' (String c acc)
  end.

Definition rev (s : string) : string := rev_append s "".

Definition is_empty (s : string) : bool :=
  match s with
  | EmptyString => true
  | String _ _ => false
  end.

Definition byte (c : ascii) : N := N_of_ascii c.

(** The characters [str.isspace] accepts, by the bytes of their encoding:
    U+0009..U+000D, U+001C..U+0020; U+0085, U+00A0; U+1680, U+2000..U+200A,
    U+2028, U+2029, U+202F, U+205F, U+3000. *)
Definition space1 (a : ascii) : bool :=
  let n := byte a in
  ((9 <=? n) && (n <=? 13) || (28 <=? n) && (n <=? 32))%N.

Definition space2 (a b : ascii) : bool :=
  ((byte a =? 194) && ((byte b =? 133) || (byte b =? 160)))%N.

Definition space3 (a b c : ascii) : bool :=
  let x := byte a in
  let y := byte b in
  let z := byte c in
  ((x =? 225) && (y =? 154) && (z =? 128)
   || (x =? 226) && (y =? 128)
      && ((128 <=? z) && (z <=? 138) || (z =? 168) || (z =? 169) || (z =? 175))
   || (x =? 226) && (y =? 129) && (z =? 159)
   || (x =? 227) && (y =? 128) && (z =? 128))%N.

(** Drops the white space a string starts with.  With [backwards] the string
    is read from its end (it was reversed), so the bytes of one character
    come last byte first. *)
Fixpoint drop_space (backwards : bool) (s : string) : string :=
  match s with
  | EmptyString => s
  | String a s1 =>
      if space1 a then drop_space backwards s1
      else
        match s1 with
        | EmptyString => s
        | String b s2 =>
            if (if backwards then space2 b a else space2 a b)
            then drop_space backwards s2
            else
              match s2 with
              | EmptyString => s
              | String c s3 =>
                  if (if backwards then space3 c b a else space3 a b c)
                  then drop_space backwards s3
                  else s
              end
        end
  end.

Definition lstrip (s : string) : string := drop_space false s.
Definition rstrip (s : string) : string := rev (drop_space true (rev s)).

(** [s.strip()] *)
Definition strip (s : string) : string := rstrip (lstrip s).

(** [s.lower()] on the ASCII letters, which is all a header name has. *)
Definition lower_ascii (c : ascii) : ascii :=
  let n := byte c in
  if ((65 <=? n) && (n <=? 90))%N then ascii_of_N (n + 32) else c.

Fixpoint lower (s : string) : string :=
  match s with
  | EmptyString => EmptyString
  | String c s' => String (lower_ascii c) (lower s')
  end.

(** Lower-case hexadecimal digits, as [%x] writes them. *)
Definition hex_digit (n : N) : ascii :=
  match String.get (N.to_nat n) "0123456789abcdef" with
  | Some c => c
  | None => "0"%char
  end.

(** [%04x] for a number below 65536. *)
Definition hex4 (n : N) : string :=
  String (hex_digit (n / 4096))
    (String (hex_digit (n / 256 mod 16))
       (String (hex_digit (n / 16 mod 16))
          (String (hex_digit (n mod 16)) ""))).

(** The bytes 128 to 191 continue a character; every other byte starts one. *)
Definition continuation (a : ascii) : bool :=
  ((128 <=? byte a) && (byte a <=? 191))%N.

(** The surrogate a string starts with, if it starts with one, and what
    follows it: the code points U+D800 to U+DFFF take the three bytes
    237, 160..191, 128..191. *)
Definition surrogate_head (s : string) : option (N * string) :=
  match s with
  | String a (String b (String c rest)) =>
      if ((byte a =? 237) && (160 <=? byte b) && (byte b <=? 191))%N
      then Some ((53248 + (byte b - 128) * 64 + (byte c) mod 64)%N, rest)
      else None
  | _ => None
  end.

(** The first surrogate of a string: the number of characters before it,
    counted from [position], its code point and what follows it. *)
Fixpoint first_surrogate (position : nat) (s : string) : option (nat * N * string) :=
  match surrogate_head s with
  | Some (code, rest) => Some (position, code, rest)
  | None =>
      match s with
      | EmptyString => None
      | String a s' =>
          first_surrogate (if continuation a then position else S position) s'
      end
  end.

(** The number of surrogates a string starts with. *)
Fixpoint surrogate_run (fuel : nat) (s : string) : nat :=
  match fuel with
  | O => O
  | S fuel' =>
      match surrogate_head s with
      | Some (_, rest) => S (surrogate_run fuel' rest)
      | None => O
      end
  end.

(** [s.encode("utf-8")] succeeds: the string holds no surrogate. *)
Definition encodable (s : string) : bool :=
  match first_surrogate 0 s with
  | Some _ => false
  | None => true
  end.

(** The message of the [UnicodeEncodeError] that [s.encode("utf-8")] raises:
    it names the first surrogate, or the positions of the first run of them. *)
Definition encode_error (s : string) : string :=
  match first_surrogate 0 s with
  | None => ""
  | Some (position, code, rest) =>
      match surrogate_run (String.length rest) rest with
      | O =>
          "'utf-8' codec can't encode character '\u" ++ hex4 code
          ++ "' in position " ++ format_int (Z.of_nat position)
          ++ ": surrogates not allowed"
      | S more =>
          "'utf-8' codec can't encode characters in position "
          ++ format_int (Z.of_nat position) ++ "-"
          ++ format_int (Z.of_nat (position + S more))
          ++ ": surrogates not allowed"
      end
  end.

End Str.

(** A [str] on its way to the standard output: one that UTF-8 encodes, given
    by its encoding, or one that does not, given by the message of the
    error. *)
Inductive text : Type :=
| Encodable (line : string)
| Unencodable (error : string).

(** The text a string of a document stands for. *)
Definition document_text (s : string) : text :=
  if Str.encodable s then Encodable s else Unencodable (Str.encode_error s).

(** The text of a message: the messages of the script and of the exceptions
    it meets hold no surrogate. *)
Definition message (s : string) : text := Encodable s.

(** ** The regular expression of [authenticate]

    [re.search(r"access_token=([^&]+)", s)]: the leftmost position of [s]
    where the literal is followed by at least one character other than [&];
    group 1 is the longest run of such characters there. *)

Module Re.

Definition amp : ascii := "&"%char.

(** [[^&]*], greedy: nothing follows it in the pattern, so the longest run
    is the one the match keeps. *)
Fixpoint not_amp_run (s : string) : string :=
  match s with
  | EmptyString => EmptyString
  | String c s' => if Ascii.eqb c amp then EmptyString else String c (not_amp_run s')
  end.

(** The pattern anchored at the start of [s]; the result is group 1. *)
Definition match_here (s : string) : option string :=
  match Str.strip_literal "access_token=" s with
  | None => None
  | Some rest =>
      let tok := not_amp_run rest in
      if Str.is_empty tok then None else Some tok
  end.

(** [re.search]: the start positions are tried from left to right. *)
Fixpoint search (s : string) : option string :=
  match match_here s with
  | Some tok => Some tok
  | None =>
      match s with
      | EmptyString => None
      | String _ s' => search s'
      end
  end.

End Re.

(** ** Python values *)

(** What [resp.json()] can return.  A [float] is kept as the bit pattern of
    its IEEE 754 binary64 representation, and a [dict] as its items in the
    order of the document, which is the order [json.dumps] writes them in. *)
Inductive pyvalue : Type :=
| PNone
| PBool (b : bool)
| PInt (n : Z)
| PFloat (bits : Z)
| PStr (s : string)
| PList (items : list pyvalue)
| PDict (items : list (string * pyvalue)).

(** [bool(v)]: [None], [False], zero, and the empty string, list and dict
    are false.  Both [0.0] and [-0.0] are zero. *)
Definition truthy (v : pyvalue) : bool :=
  match v with
  | PNone => false
  | PBool b => b
  | PInt n => negb (n =? 0)
  | PFloat bits => negb (Z.land bits (2 ^ 63 - 1) =? 0)
  | PStr s => negb (Str.is_empty s)
  | PList items => match items with [] => false | _ :: _ => true end
  | PDict items => match items with [] => false | _ :: _ => true end
  end.

(** Truth value of a [str] that may be [None] (an environment variable). *)
Definition truthy_opt (o : option string) : bool :=
  match o with
  | None => false
  | Some s => negb (Str.is_empty s)
  end.

(** [d.get(key)] on the items of a [dict], [None] standing for a missing key. *)
Fixpoint dict_lookup (key : string) (items : list (string * pyvalue)) : option pyvalue :=
  match items with
  | [] => None
  | (k, v) :: rest => if String.eqb k key then Some v else dict_lookup key rest
  end.

(** [type(v).__name__] *)
Definition type_name (v : pyvalue) : string :=
  match v with
  | PNone => "NoneType"
  | PBool _ => "bool"
  | PInt _ => "int"
  | PFloat _ => "float"
  | PStr _ => "str"
  | PList _ => "list"
  | PDict _ => "dict"
  end.

(** ** Exceptions *)

(** The subclasses of [Exception] the script can meet.  What the network
    raises is a [ProxyError] or some other [RequestException] (connection
    error, timeout, invalid header, ...); what [print] raises is a
    [UnicodeEncodeError]. *)
Inductive exn : Type :=
| Exception (msg : string)
| ProxyError (msg : string)
| RequestException (msg : string)
| HTTPError (msg : string)
| JSONDecodeError (msg : string)
| KeyError (key : string)
| TypeError (msg : string)
| AttributeError (msg : string)
| UnicodeEncodeError (msg : string).

(** [str(e)]; a [KeyError] shows the [repr] of its key. *)
Definition str_exn (e : exn) : string :=
  match e with
  | Exception msg | ProxyError msg | RequestException msg | HTTPError msg
  | JSONDecodeError msg | TypeError msg | AttributeError msg
  | UnicodeEncodeError msg => msg
  | KeyError key => "'" ++ key ++ "'"
  end.

(** [isinstance(e, requests.exceptions.ProxyError)] *)
Definition is_proxy_error (e : exn) : bool :=
  match e with
  | ProxyError _ => true
  | _ => false
  end.

Inductive result (A : Type) : Type :=
| Ok (a : A)
| Raise (e : exn).
Arguments Ok {A} a.
Arguments Raise {A} e.

(** ** HTTP data *)

Record Cookie : Type := mkCookie {
  cookie_name : string;
  cookie_value : string;
  cookie_domain : string
}.

(** A [requests.Session] as [get_session] configures it: the proxies and the
    headers set on top of the library's defaults. *)
Record Session : Type := mkSession {
  proxies : list (string * string);
  session_headers : list (string * string)
}.

(** The arguments of one call of [session.request]. *)
Record Request : Type := mkRequest {
  method : string;
  url : string;
  headers : list (string * pyvalue);
  json : option pyvalue;
  params : list (string * string);
  allow_redirects : bool;
  timeout : option Z
}.

(** The outcome of [resp.json()]: the decoded document, or the message of
    the decoding error when the body is not valid JSON. *)
Inductive json_outcome : Type :=
| JsonValue (v : pyvalue)
| JsonInvalid (msg : string).

Record Response : Type := mkResponse {
  status_code : Z;
  reason : string;
  resp_url : string;
  resp_headers : list (string * string);
  resp_body : json_outcome;
  resp_cookies : list Cookie
}.

(** [resp.headers.get(name, default)]; the names of a response's headers
    compare without case. *)
Fixpoint headers_get (name default : string) (hs : list (string * string)) : string :=
  match hs with
  | [] => default
  | (k, v) :: rest =>
      if String.eqb (Str.lower k) (Str.lower name) then v
      else headers_get name default rest
  end.

(** [name in resp.headers] *)
Fixpoint headers_mem (name : string) (hs : list (string * string)) : bool :=
  match hs with
  | [] => false
  | (k, _) :: rest => String.eqb (Str.lower k) (Str.lower name) || headers_mem name rest
  end.

(** ** State and effects *)

Inductive event : Type :=
| SessionCreated
| Sent (s : Session) (r : Request)
| Printed (line : string).

(** The cookie jar of the session and everything the run did so far, oldest
    event first. *)
Record State : Type := mkState {
  jar : list Cookie;
  trace : list event
}.

Definition initial : State := {| jar := []; trace := [] |}.

(** What comes of one call of [session.request], redirects followed where
    the call follows them: the response of the last hop, the cookies of every
    hop among its [resp_cookies]; an exception raised before any hop was
    answered; or an exception raised after answered hops had left their
    cookies in the jar (a redirect to a host that cannot be reached, too
    many redirects). *)
Inductive net_outcome : Type :=
| Responds (r : Response)
| Fails (e : exn)
| Breaks (stored : list Cookie) (e : exn).

(** What the script runs against: the environment after [load_dotenv()], the
    network (its answer may depend on all that happened before), and [str]
    on a decoded JSON value, a library function whose text is not part of
    the script. *)
Record Runtime : Type := mkRuntime {
  getenv : string -> option string;
  network : State -> Session -> Request -> net_outcome;
  py_str : pyvalue -> string
}.

Definition M (A : Type) : Type := State -> result A * State.

Definition ret {A} (a : A) : M A := fun st => (Ok a, st).

Definition raise {A} (e : exn) : M A := fun st => (Raise e, st).

Definition bind {A B} (m : M A) (k : A -> M B) : M B :=
  fun st =>
    match m st with
    | (Ok a, st') => k a st'
    | (Raise e, st') => (Raise e, st')
    end.

(** [try: m  except Exception as e: handler(e)] *)
Definition try_except {A} (m : M A) (handler : exn -> M A) : M A :=
  fun st =>
    match m st with
    | (Ok a, st') => (Ok a, st')
    | (Raise e, st') => handler e st'
    end.

Notation "x <- m ;; k" := (bind m (fun x => k))
  (at level 61, m at next level, right associativity).
Notation "m ;;; k" := (bind m (fun _ => k))
  (at level 61, right associativity).

Definition emit (ev : event) : M unit :=
  fun st => (Ok tt, {| jar := jar st; trace := trace st ++ [ev] |}).

(** [print(line)]: the line is written if the standard output can encode
    it; the error is raised, and nothing written, if it cannot. *)
Definition print (line : text) : M unit :=
  match line with
  | Encodable bytes => emit (Printed bytes)
  | Unencodable error => raise (UnicodeEncodeError error)
  end.

(** ** [json.dumps(_, indent=2, ensure_ascii=False)] *)

Module Json.

Definition quote : string := String "034" "".
Definition newline : string := String "010" "".

(** The replacement of one character inside a string: the quote, the
    backslash and the control characters are escaped, every other character
    is kept as it is. *)
Definition escape (c : ascii) : string :=
  let n := Str.byte c in
  if (n =? 34)%N then "\" ++ quote
  else if (n =? 92)%N then "\\"
  else if (n =? 8)%N then "\b"
  else if (n =? 12)%N then "\f"
  else if (n =? 10)%N then "\n"
  else if (n =? 13)%N then "\r"
  else if (n =? 9)%N then "\t"
  else if (n <? 32)%N then "\u" ++ Str.hex4 n
  else String c "".

Fixpoint escape_all (s : string) : string :=
  match s with
  | EmptyString => EmptyString
  | String c s' => escape c ++ escape_all s'
  end.

Definition encode_basestring (s : string) : string := quote ++ escape_all s ++ quote.

Fixpoint spaces (n : nat) : string :=
  match n with
  | O => ""
  | S n' => " " ++ spaces n'
  end.

(** The line break before an item nested [level] deep. *)
Definition newline_indent (level : nat) : string := newline ++ spaces (2 * level).

Section Encoder.

(** [float.__repr__] on a finite float, given by its bits. *)
Variable float_repr : Z -> string.

Definition floatstr (bits : Z) : string :=
  if Z.land (Z.shiftr bits 52) 2047 =? 2047 then
    if Z.land bits (2 ^ 52 - 1) =? 0 then
      if Z.testbit bits 63 then "-Infinity" else "Infinity"
    else "NaN"
  else float_repr bits.

(** The text of a value nested [level] deep. *)
Fixpoint encode (level : nat) (v : pyvalue) {struct v} : string :=
  match v with
  | PNone => "null"
  | PBool b => if b then "true" else "false"
  | PInt n => Str.format_int n
  | PFloat bits => floatstr bits
  | PStr s => encode_basestring s
  | PList items =>
      match items with
      | [] => "[]"
      | _ :: _ =>
          "[" ++ newline_indent (S level)
          ++ (fix join (l : list pyvalue) : string :=
                match l with
                | [] => ""
                | x :: l' =>
                    encode (S level) x
                    ++ match l' with
                       | [] => ""
                       | _ :: _ => "," ++ newline_indent (S level) ++ join l'
                       end
                end) items
          ++ newline_indent level ++ "]"
      end
  | PDict items =>
      match items with
      | [] => "{}"
      | _ :: _ =>
          "{" ++ newline_indent (S level)
          ++ (fix join (l : list (string * pyvalue)) : string :=
                match l with
                | [] => ""
                | (k, x) :: l' =>
                    encode_basestring k ++ ": " ++ encode (S level) x
                    ++ match l' with
                       | [] => ""
                       | _ :: _ => "," ++ newline_indent (S level) ++ join l'
                       end
                end) items
          ++ newline_indent level ++ "}"
      end
  end.

End Encoder.

End Json.

(** ** The script *)

Definition SHARD : string := "ap".

Definition AUTH_COOKIES_URL : string := "https://auth.riotgames.com/api/v1/authorization".
Definition AUTH_REAUTH_URL : string := "https://auth.riotgames.com/authorize".
Definition ENTITLEMENTS_URL : string := "https://entitlements.auth.riotgames.com/api/token/v1".
Definition USERINFO_URL : string := "https://auth.riotgames.com/userinfo".

Definition AUTH_BODY : list (string * string) :=
  [ ("client_id", "play-valorant-web-prod");
    ("nonce", "1");
    ("redirect_uri", "https://playvalorant.com/opt_in");
    ("response_type", "token id_token");
    ("scope", "account openid") ].

Definition CLIENT_PLATFORM : string :=
  "ew0KCSJwbGF0Zm9ybVR5cGUiOiAiUEMiLA0KCSJwbGF0Zm9ybU9TIjogIldpbmRvd3MiLA0KCSJwbGF0Zm9ybU9TVmVyc2lvbiI6ICIxMC4wLjE5MDQyLjEuMjU2LjY0Yml0IiwNCgkicGxhdGZvcm1DaGlwc2V0IjogIlVua25vd24iDQp9".

Definition USER_AGENT : string :=
  "RiotClient/70.0.0.4888690.4873386 rso-auth (Windows;10;;Professional, x64)".

Definition VERSION_URL : string := "https://valorant-api.com/v1/version".
Definition FALLBACK_VERSION : string := "release-12.02-shipping-9-4226954".

(** A [dict] of strings passed as [json=]. *)
Definition dict_of_strings (items : list (string * string)) : pyvalue :=
  PDict (map (fun kv => (fst kv, PStr (snd kv))) items).

(** The cookie jar: [jar.set(name, value, domain=domain)].  A cookie of the
    same name and domain is replaced; the value [None] only removes it. *)
Definition jar_remove (name domain : string) (cookies : list Cookie) : list Cookie :=
  filter (fun c => negb (String.eqb (cookie_name c) name && String.eqb (cookie_domain c) domain))
         cookies.

Definition jar_set (name : string) (value : option string) (domain : string)
    (cookies : list Cookie) : list Cookie :=
  match value with
  | None => jar_remove name domain cookies
  | Some v => jar_remove name domain cookies ++ [mkCookie name v domain]
  end.

Definition jar_store (cookies : list Cookie) (c : Cookie) : list Cookie :=
  jar_set (cookie_name c) (Some (cookie_value c)) (cookie_domain c) cookies.

(** [session.cookies.set(name, value, domain=domain)] *)
Definition cookies_set (name : string) (value : option string) (domain : string) : M unit :=
  fun st => (Ok tt, {| jar := jar_set name value domain (jar st); trace := trace st |}).

(** [resp.json()] *)
Definition resp_json (resp : Response) : M pyvalue :=
  match resp_body resp with
  | JsonValue v => ret v
  | JsonInvalid msg => raise (JSONDecodeError msg)
  end.

(** [resp.raise_for_status()]: the statuses 400 to 599 raise. *)
Definition raise_for_status (resp : Response) : M unit :=
  let code := status_code resp in
  if (400 <=? code) && (code <? 500) then
    raise (HTTPError (Str.format_int code ++ " Client Error: " ++ reason resp
                      ++ " for url: " ++ resp_url resp))
  else if (500 <=? code) && (code <? 600) then
    raise (HTTPError (Str.format_int code ++ " Server Error: " ++ reason resp
                      ++ " for url: " ++ resp_url resp))
  else ret tt.

(** [v[key]] for a string [key] *)
Definition subscript (v : pyvalue) (key : string) : M pyvalue :=
  match v with
  | PDict items =>
      match dict_lookup key items with
      | Some x => ret x
      | None => raise (KeyError key)
      end
  | PList _ => raise (TypeError "list indices must be integers or slices, not str")
  | PStr _ => raise (TypeError "string indices must be integers, not 'str'")
  | _ => raise (TypeError ("'" ++ type_name v ++ "' object is not subscriptable"))
  end.

(** [v.get(key, default)]: only a [dict] has the method. *)
Definition method_get (v : pyvalue) (key : string) (default : pyvalue) : M pyvalue :=
  match v with
  | PDict items =>
      ret (match dict_lookup key items with
           | Some x => x
           | None => default
           end)
  | _ => raise (AttributeError ("'" ++ type_name v ++ "' object has no attribute 'get'"))
  end.

(** The three requests of the script that have no arguments of their own:
    [session.post(AUTH_COOKIES_URL, headers=..., json=AUTH_BODY)],
    [session.get(AUTH_REAUTH_URL, params=AUTH_BODY, allow_redirects=False)]
    and [session.get(VERSION_URL, timeout=5)]. *)
Definition authorization_post : Request :=
  {| method := "POST"; url := AUTH_COOKIES_URL;
     headers := [("Content-Type", PStr "application/json")];
     json := Some (dict_of_strings AUTH_BODY);
     params := []; allow_redirects := true; timeout := None |}.

Definition reauthorization_get : Request :=
  {| method := "GET"; url := AUTH_REAUTH_URL;
     headers := []; json := None;
     params := AUTH_BODY; allow_redirects := false; timeout := None |}.

Definition version_get : Request :=
  {| method := "GET"; url := VERSION_URL;
     headers := []; json := None;
     params := []; allow_redirects := true; timeout := Some 5 |}.

Section Program.

Variable rt : Runtime.

Definition SSID : option string := getenv rt "SSID".
Definition PROXY : option string := getenv rt "PROXY".

(** [os.getenv("CLIENT_VERSION", "").strip() or None] *)
Definition CLIENT_VERSION_OVERRIDE : option string :=
  let s := Str.strip (match getenv rt "CLIENT_VERSION" with
                      | Some v => v
                      | None => ""
                      end) in
  if Str.is_empty s then None else Some s.

(** [session.request(...)]: the request is sent, whatever comes of it; every
    hop that is answered leaves its cookies in the jar, also when the call
    raises on a later hop. *)
Definition session_request (session : Session) (req : Request) : M Response :=
  fun st =>
    let sent := (trace st ++ [Sent session req])%list in
    match network rt st session req with
    | Responds resp =>
        (Ok resp, {| jar := fold_left jar_store (resp_cookies resp) (jar st); trace := sent |})
    | Fails e => (Raise e, {| jar := jar st; trace := sent |})
    | Breaks stored e =>
        (Raise e, {| jar := fold_left jar_store stored (jar st); trace := sent |})
    end.

Definition get_session : M Session :=
  emit SessionCreated ;;;
  ret {| proxies := match PROXY with
                    | Some p => if Str.is_empty p then [] else [("https", p); ("http", p)]
                    | None => []
                    end;
         session_headers := [("User-Agent", USER_AGENT)] |}.

Definition authenticate (session : Session) : M string :=
  session_request session authorization_post ;;;
  cookies_set "ssid" SSID "auth.riotgames.com" ;;;
  resp <- session_request session reauthorization_get ;;
  if negb ((status_code resp =? 301) || (status_code resp =? 303)) then
    raise (Exception ("認証失敗 (status: " ++ Str.format_int (status_code resp) ++ ")"))
  else
    match Re.search (headers_get "Location" "" (resp_headers resp)) with
    | None => raise (Exception "アクセストークン取得失敗")
    | Some group1 => ret group1
    end.

Definition get_entitlements_token (session : Session) (access_token : string) : M pyvalue :=
  resp <- session_request session
    {| method := "POST"; url := ENTITLEMENTS_URL;
       headers := [("Authorization", PStr ("Bearer " ++ access_token));
                   ("Content-Type", PStr "application/json")];
       json := Some (PDict []);
       params := []; allow_redirects := true; timeout := None |} ;;
  raise_for_status resp ;;;
  doc <- resp_json resp ;;
  subscript doc "entitlements_token".

Definition get_puuid (session : Session) (access_token : string) : M pyvalue :=
  resp <- session_request session
    {| method := "GET"; url := USERINFO_URL;
       headers := [("Authorization", PStr ("Bearer " ++ access_token))];
       json := None;
       params := []; allow_redirects := true; timeout := None |} ;;
  raise_for_status resp ;;;
  doc <- resp_json resp ;;
  subscript doc "sub".

(** The [try] block of [get_client_version]: [Some version] where the block
    returns, [None] where control leaves it by the end or by an exception. *)
Definition live_client_version (session : Session) : M (option pyvalue) :=
  try_except
    (resp <- session_request session version_get ;;
     if status_code resp =? 200 then
       doc <- resp_json resp ;;
       data <- method_get doc "data" (PDict []) ;;
       version <- method_get data "riotClientVersion" PNone ;;
       if truthy version then ret (Some version) else ret None
     else ret None)
    (fun _ => ret None).

Definition get_client_version (session : Session) : M pyvalue :=
  if truthy_opt CLIENT_VERSION_OVERRIDE then
    ret (PStr (match CLIENT_VERSION_OVERRIDE with
               | Some v => v
               | None => ""
               end))
  else
    found <- live_client_version session ;;
    match found with
    | Some version => ret version
    | None => ret (PStr FALLBACK_VERSION)
    end.

(** The list the loop of [get_storefront] runs over. *)
Definition storefront_variants (puuid : pyvalue) : list (string * string) :=
  [ ("GET", "https://pd." ++ SHARD ++ ".a.pvp.net/store/v2/storefront/" ++ py_str rt puuid);
    ("POST", "https://pd." ++ SHARD ++ ".a.pvp.net/store/v3/storefront/" ++ py_str rt puuid);
    ("GET", "https://pd." ++ SHARD ++ ".a.pvp.net/store/v1/storefront/" ++ py_str rt puuid) ].

(** The request of one turn of the loop. *)
Definition storefront_request (hs : list (string * pyvalue)) (variant : string * string)
    : Request :=
  {| method := fst variant; url := snd variant;
     headers := hs;
     json := if String.eqb (fst variant) "POST" then Some (PDict []) else None;
     params := []; allow_redirects := true; timeout := None |}.

(** The [for] loop and the [raise] that follows it. *)
Fixpoint storefront_loop (session : Session) (hs : list (string * pyvalue))
    (variants : list (string * string)) : M pyvalue :=
  match variants with
  | [] => raise (Exception "ストアフロント取得失敗")
  | variant :: rest =>
      resp <- session_request session (storefront_request hs variant) ;;
      if status_code resp =? 200 then resp_json resp
      else storefront_loop session hs rest
  end.

Definition storefront_headers (access_token : string)
    (entitlements_token client_version : pyvalue) : list (string * pyvalue) :=
  [ ("Authorization", PStr ("Bearer " ++ access_token));
    ("X-Riot-Entitlements-JWT", entitlements_token);
    ("X-Riot-ClientPlatform", PStr CLIENT_PLATFORM);
    ("X-Riot-ClientVersion", client_version) ].

Definition get_storefront (session : Session) (access_token : string)
    (entitlements_token puuid client_version : pyvalue) : M pyvalue :=
  storefront_loop session
    (storefront_headers access_token entitlements_token client_version)
    (storefront_variants puuid).

(** [json.dumps(v, indent=2, ensure_ascii=False)], as the standard output
    takes it.  [str] and [repr] agree on a float. *)
Definition json_dumps (v : pyvalue) : text :=
  document_text (Json.encode (fun bits => py_str rt (PFloat bits)) 0 v).

(** The body of the [try] statement of [main], up to the document. *)
Definition fetch : M pyvalue :=
  session <- get_session ;;
  access_token <- authenticate session ;;
  entitlements_token <- get_entitlements_token session access_token ;;
  puuid <- get_puuid session access_token ;;
  client_version <- get_client_version session ;;
  get_storefront session access_token entitlements_token puuid client_version.

Definition main : M unit :=
  if negb (truthy_opt SSID) then
    print (message "エラー: .env に SSID が設定されていません。")
  else
    try_except
      (storefront <- fetch ;;
       print (json_dumps storefront))
      (fun e =>
         if is_proxy_error e then
           print (message "エラー: プロキシ接続失敗。PROXY設定を確認してください。")
         else
           print (message ("エラー: " ++ str_exn e))).

End Program.

(** ** Vocabulary of the properties *)

(** No character of [s] is [&]. *)
Definition no_amp (s : string) : Prop := ~ In Re.amp (list_ascii_of_string s).

(** [token] is what follows an occurrence of [access_token=] in [location],
    [before] being what precedes the occurrence: it runs up to the next [&]
    or to the end, and is not empty. *)
Definition token_at (location before token : string) : Prop :=
  exists rest,
    location = before ++ "access_token=" ++ token ++ rest /\
    token <> "" /\
    no_amp token /\
    (rest = "" \/ exists rest', rest = String Re.amp rest').

(** [sub] occurs in [s]. *)
Definition occurs (sub s : string) : Prop :=
  exists before rest, s = before ++ sub ++ rest.

Definition redirect (code : Z) : Prop := code = 301 \/ code = 303.

Section Vocabulary.

Variable rt : Runtime.

(** The reauthorization call of [authenticate session], run from [st], is
    answered by [resp] and leaves [st']. *)
Definition reauthorized (session : Session) (st : State) (resp : Response) (st' : State)
    : Prop :=
  exists r0 st1 st2,
    session_request rt session authorization_post st = (Ok r0, st1) /\
    cookies_set "ssid" (SSID rt) "auth.riotgames.com" st1 = (Ok tt, st2) /\
    session_request rt session reauthorization_get st2 = (Ok resp, st').

(** From [st] on, each of [variants], tried in turn, is answered with a
    status other than 200; [st'] is the state after the last of them. *)
Inductive refused (session : Session) (hs : list (string * pyvalue))
    : State -> list (string * string) -> State -> Prop :=
| refused_nil : forall st, refused session hs st [] st
| refused_cons : forall st variant rest resp st1 st2,
    session_request rt session (storefront_request hs variant) st = (Ok resp, st1) ->
    status_code resp <> 200 ->
    refused session hs st1 rest st2 ->
    refused session hs st (variant :: rest) st2.

(** The events of sending [variants] in turn. *)
Definition attempts (session : Session) (hs : list (string * pyvalue))
    (variants : list (string * string)) : list event :=
  map (fun variant => Sent session (storefront_request hs variant)) variants.

(** The live lookup, made in [st], yields [version]: a response of status
    200 whose document has a true value under [data], [riotClientVersion]. *)
Definition version_found (session : Session) (st : State) (version : pyvalue) : Prop :=
  exists resp doc data,
    network rt st session version_get = Responds resp /\
    status_code resp = 200 /\
    resp_body resp = JsonValue (PDict doc) /\
    dict_lookup "data" doc = Some (PDict data) /\
    dict_lookup "riotClientVersion" data = Some version /\
    truthy version = true.

(** Every step of [main] before the storefront fetch succeeded, from [st0]
    to [st], with these results. *)
Definition prepared (st0 : State) (session : Session) (access_token : string)
    (entitlements_token puuid client_version : pyvalue) (st : State) : Prop :=
  exists sa sb sc sd,
    get_session rt st0 = (Ok session, sa) /\
    authenticate rt session sa = (Ok access_token, sb) /\
    get_entitlements_token rt session access_token sb = (Ok entitlements_token, sc) /\
    get_puuid rt session access_token sc = (Ok puuid, sd) /\
    get_client_version rt session sd = (Ok client_version, st).

End Vocabulary.

(** The lines printed, in order. *)
Definition printed (evs : list event) : list string :=
  flat_map (fun ev => match ev with Printed line => [line] | _ => [] end) evs.

(** The requests sent, in order. *)
Definition requests (evs : list event) : list Request :=
  flat_map (fun ev => match ev with Sent _ r => [r] | _ => [] end) evs.


(** ** Vocabulary of the properties of the whole run *)

(** The requests of [get_entitlements_token] and of [get_puuid]. *)
Definition entitlements_post (access_token : string) : Request :=
  {| method := "POST"; url := ENTITLEMENTS_URL;
     headers := [("Authorization", PStr ("Bearer " ++ access_token));
                 ("Content-Type", PStr "application/json")];
     json := Some (PDict []);
     params := []; allow_redirects := true; timeout := None |}.

Definition userinfo_get (access_token : string) : Request :=
  {| method := "GET"; url := USERINFO_URL;
     headers := [("Authorization", PStr ("Bearer " ++ access_token))];
     json := None;
     params := []; allow_redirects := true; timeout := None |}.

(** The statuses [raise_for_status] rejects. *)
Definition error_status (code : Z) : Prop := 400 <= code < 600.

(** The session [get_session] returns. *)
Definition configured_session (rt : Runtime) : Session :=
  {| proxies := if truthy_opt (PROXY rt)
                then [("https", match PROXY rt with Some p => p | None => "" end);
                      ("http", match PROXY rt with Some p => p | None => "" end)]
                else [];
     session_headers := [("User-Agent", USER_AGENT)] |}.

(** All the requests a run can send, in the order in which it sends them,
    for these results of its steps: the handshake, the two resolvers, the
    version lookup unless an override is in force, the three storefront
    variants. *)
Definition plan (rt : Runtime) (access_token : string)
    (entitlements_token puuid client_version : pyvalue) : list Request :=
  ([authorization_post; reauthorization_get;
    entitlements_post access_token; userinfo_get access_token]
   ++ (if truthy_opt (CLIENT_VERSION_OVERRIDE rt) then [] else [version_get])
   ++ map (storefront_request
             (storefront_headers access_token entitlements_token client_version))
          (storefront_variants rt puuid))%list.

(** The run that starts in [st] reaches the storefront, and the first
    variant answered with 200 holds the JSON document [doc]: there is a
    credential, every step before the storefront fetch succeeds, the variants
    before that one are refused; [st'] is the state once its request is
    answered. *)
Definition served (rt : Runtime) (st : State) (doc : pyvalue) (st' : State) : Prop :=
  truthy_opt (SSID rt) = true /\
  exists session access_token entitlements_token puuid client_version sa
         before variant rest sb resp,
    prepared rt st session access_token entitlements_token puuid client_version sa /\
    storefront_variants rt puuid = (before ++ variant :: rest)%list /\
    refused rt session
      (storefront_headers access_token entitlements_token client_version) sa before sb /\
    session_request rt session
      (storefront_request
         (storefront_headers access_token entitlements_token client_version) variant) sb
    = (Ok resp, st') /\
    status_code resp = 200 /\
    resp_body resp = JsonValue doc.


(** ** Runtimes for the examples *)

Module Demo.

Definition env (vars : list (string * string)) (name : string) : option string :=
  option_map snd (find (fun kv => String.eqb (fst kv) name) vars).

Definition answer (code : Z) (hs : list (string * string)) (body : json_outcome)
    : net_outcome :=
  Responds {| status_code := code; reason := ""; resp_url := "";
              resp_headers := hs; resp_body := body; resp_cookies := [] |}.

(** A network that answers by method and address, and is out of reach for
    every address it does not list. *)
Definition scripted (script : list (string * string * net_outcome))
    (st : State) (session : Session) (req : Request) : net_outcome :=
  match find (fun entry => String.eqb (fst (fst entry)) (method req)
                           && String.eqb (snd (fst entry)) (url req)) script with
  | Some entry => snd entry
  | None => Fails (RequestException "connection refused")
  end.

(** A stand-in for the library function: [str_of] is [str] on strings,
    integers, booleans and [None], which is all the examples format. *)
Definition str_of (v : pyvalue) : string :=
  match v with
  | PStr s => s
  | PInt n => Str.format_int n
  | PBool true => "True"
  | PBool false => "False"
  | PNone => "None"
  | _ => type_name v
  end.

Definition runtime (vars : list (string * string))
    (script : list (string * string * net_outcome)) : Runtime :=
  {| getenv := env vars; network := scripted script; py_str := str_of |}.

(** The session [get_session] builds when no proxy is configured. *)
Definition session : Session :=
  {| proxies := []; session_headers := [("User-Agent", USER_AGENT)] |}.

Definition ok_empty : net_outcome := answer 200 [] (JsonValue (PDict [])).

Definition not_json : json_outcome :=
  JsonInvalid "Expecting value: line 1 column 1 (char 0)".

Definition not_found : net_outcome := answer 404 [] not_json.

(** The two calls of the handshake, the second answered by [reauth]. *)
Definition handshake (reauth : net_outcome) : list (string * string * net_outcome) :=
  [ ("POST", AUTH_COOKIES_URL, ok_empty);
    ("GET", AUTH_REAUTH_URL, reauth) ].

Definition callback : string :=
  ".../callback#access_token=ABC123&id_token=...&state=...".

(** A credential is configured and the reauthorization call is answered by
    [reauth]. *)
Definition reauth_with (reauth : net_outcome) : Runtime :=
  runtime [("SSID", "secret")] (handshake reauth).

Definition redirected : Runtime := reauth_with (answer 303 [("Location", callback)] not_json).
Definition forbidden : Runtime := reauth_with (answer 403 [] not_json).
Definition no_location : Runtime := reauth_with (answer 303 [] not_json).

(** The storefront of the account [P1]. *)
Definition store (version : string) : string :=
  "https://pd.ap.a.pvp.net/store/" ++ version ++ "/storefront/P1".

(** The first two variants are refused and the third is served. *)
Definition third_serves : Runtime :=
  runtime []
    [ ("GET", store "v2", not_found);
      ("POST", store "v3", not_found);
      ("GET", store "v1", answer 200 [] (JsonValue (PDict [("a", PInt 1)]))) ].

Definition all_refuse : Runtime :=
  runtime []
    [ ("GET", store "v2", not_found);
      ("POST", store "v3", answer 403 [] not_json);
      ("GET", store "v1", answer 500 [] not_json) ].

Definition version_doc : pyvalue :=
  PDict [("status", PInt 200);
         ("data", PDict [("riotClientVersion", PStr "release-live")])].

(** The override is set, in [configured], and the live lookup would succeed. *)
Definition overridden (configured : string) : Runtime :=
  runtime [("CLIENT_VERSION", configured)]
    [ ("GET", VERSION_URL, answer 200 [] (JsonValue version_doc)) ].

(** Nothing is configured and no host can be reached. *)
Definition offline : Runtime := runtime [] [].

(** The handshake yields the token [ABC123], the resolvers the token [E1]
    and the account [P1], the version lookup cannot be reached, and the
    first storefront variant is answered with 200 and a body that is not
    JSON. *)
Definition garbled_store : Runtime :=
  runtime [("SSID", "secret")]
    (handshake (answer 303 [("Location", callback)] not_json)
     ++ [ ("POST", ENTITLEMENTS_URL,
           answer 200 [] (JsonValue (PDict [("entitlements_token", PStr "E1")])));
          ("GET", USERINFO_URL, answer 200 [] (JsonValue (PDict [("sub", PStr "P1")])));
          ("GET", store "v2", answer 200 [] not_json) ]).

(** The calls up to the two resolvers succeed: the token is [ABC123], the
    entitlement [E1] and the account [P1]. *)
Definition signed_in : list (string * string * net_outcome) :=
  handshake (answer 303 [("Location", callback)] not_json)
  ++ [ ("POST", ENTITLEMENTS_URL,
        answer 200 [] (JsonValue (PDict [("entitlements_token", PStr "E1")])));
       ("GET", USERINFO_URL, answer 200 [] (JsonValue (PDict [("sub", PStr "P1")]))) ].

Definition layout : pyvalue := PDict [("SkinsPanelLayout", PDict [])].

(** Every step succeeds, with the override [V1], and the first variant
    serves the storefront. *)
Definition served : Runtime :=
  runtime [("SSID", "secret"); ("CLIENT_VERSION", "V1")]
    (signed_in ++ [ ("GET", store "v2", answer 200 [] (JsonValue layout)) ]).




(** Every step succeeds and the three variants refuse. *)
Definition exhausted : Runtime :=
  runtime [("SSID", "secret"); ("CLIENT_VERSION", "V1")]
    (signed_in
     ++ [ ("GET", store "v2", not_found);
          ("POST", store "v3", not_found);
          ("GET", store "v1", not_found) ]).

(** The handshake succeeds and the entitlement endpoint answers [reply]. *)
Definition entitled (reply : net_outcome) : Runtime :=
  runtime [("SSID", "secret")]
    (handshake (answer 303 [("Location", callback)] not_json)
     ++ [ ("POST", ENTITLEMENTS_URL, reply) ]).

(** The user-info endpoint answers [reply]. *)
Definition identified (reply : net_outcome) : Runtime :=
  runtime [("SSID", "secret")] [ ("GET", USERINFO_URL, reply) ].

(** The first variant is refused and the transport fails on the second. *)
Definition second_times_out : Runtime :=
  runtime []
    [ ("GET", store "v2", not_found);
      ("POST", store "v3", Fails (RequestException "Read timed out."));
      ("GET", store "v1", answer 200 [] (JsonValue layout)) ].

(** The authorization call is redirected, with a cookie, to a host that
    cannot be reached. *)
Definition lost_after_redirect : Runtime :=
  runtime [("SSID", "secret")]
    [ ("POST", AUTH_COOKIES_URL,
       Breaks [mkCookie "tdid" "t1" "auth.riotgames.com"]
         (RequestException "connection refused")) ].


End Demo.

(** ** Strings and the regular expression *)

Lemma append_nil_r (s : string) : s ++ "" = s.
Proof. induction s as [|c s IH]; simpl; congruence. Qed.

Lemma append_assoc (a b c : string) : (a ++ b) ++ c = a ++ b ++ c.
Proof. induction a as [|x a IH]; simpl; congruence. Qed.

Lemma length_append (a b : string) :
  String.length (a ++ b) = (String.length a + String.length b)%nat.
Proof. induction a as [|x a IH]; simpl; congruence. Qed.

Lemma to_int_proper (n : Z) :
  Z.to_int n <> Decimal.Pos Decimal.Nil /\ Z.to_int n <> Decimal.Neg Decimal.Nil.
Proof.
  destruct n as [|p|p]; simpl; split; try discriminate;
    intros H; injection H as H; exact (DecimalPos.Unsigned.to_uint_nonnil p H).
Qed.

(** The decimal form of an [int] determines it. *)
Lemma format_int_inj (m n : Z) : Str.format_int m = Str.format_int n -> m = n.
Proof.
  unfold Str.format_int. intros H.
  apply to_int_inj.
  destruct (to_int_proper m) as [Hm1 Hm2], (to_int_proper n) as [Hn1 Hn2].
  pose proof (NilZero.isi _ Hm1 Hm2) as Em.
  pose proof (NilZero.isi _ Hn1 Hn2) as En.
  rewrite H in Em. rewrite Em in En. now injection En.
Qed.

Lemma strip_literal_app (lit rest : string) : Str.strip_literal lit (lit ++ rest) = Some rest.
Proof.
  induction lit as [|a lit IH]; simpl.
  - reflexivity.
  - rewrite Ascii.eqb_refl. exact IH.
Qed.

Lemma strip_literal_inv (lit s rest : string) :
  Str.strip_literal lit s = Some rest -> s = lit ++ rest.
Proof.
  revert s. induction lit as [|a lit IH]; simpl; intros s H.
  - now injection H.
  - destruct s as [|b s]; [discriminate|].
    destruct (Ascii.eqb a b) eqn:E; [|discriminate].
    apply Ascii.eqb_eq in E. subst b. f_equal. now apply IH.
Qed.

Lemma is_empty_false (s : string) : Str.is_empty s = false <-> s <> "".
Proof. destruct s; simpl; split; congruence. Qed.

Lemma no_amp_cons (c : ascii) (s : string) : no_amp (String c s) <-> c <> Re.amp /\ no_amp s.
Proof.
  unfold no_amp. simpl. split.
  - intros H. split; intros H'; apply H; [left; congruence | now right].
  - intros [H1 H2] [H|H]; [congruence | contradiction].
Qed.

Lemma not_amp_run_no_amp (s : string) : no_amp (Re.not_amp_run s).
Proof.
  induction s as [|c s IH]; simpl.
  - intros [].
  - destruct (Ascii.eqb c Re.amp) eqn:E.
    + intros [].
    + apply no_amp_cons. split; [|exact IH]. now apply Ascii.eqb_neq.
Qed.

(** What [[^&]*] leaves behind is empty or starts with [&]. *)
Lemma not_amp_run_split (s : string) :
  exists rest, s = Re.not_amp_run s ++ rest /\ (rest = "" \/ exists rest', rest = String Re.amp rest').
Proof.
  induction s as [|c s (rest & E & H)]; simpl.
  - exists "". auto.
  - destruct (Ascii.eqb c Re.amp) eqn:Ec.
    + apply Ascii.eqb_eq in Ec. subst c. exists (String Re.amp s). split; eauto.
    + exists rest. split; [simpl; congruence | exact H].
Qed.

Lemma not_amp_run_app (tok rest : string) :
  no_amp tok -> (rest = "" \/ exists rest', rest = String Re.amp rest') ->
  Re.not_amp_run (tok ++ rest) = tok.
Proof.
  intros Htok Hrest. induction tok as [|c tok IH]; simpl.
  - destruct Hrest as [->|[rest' ->]]; reflexivity.
  - apply no_amp_cons in Htok as [Hc Htok].
    apply Ascii.eqb_neq in Hc. rewrite Hc. f_equal. now apply IH.
Qed.

(** The anchored pattern matches exactly when a token stands at the start. *)
Lemma match_here_spec (s tok : string) : Re.match_here s = Some tok <-> token_at s "" tok.
Proof.
  unfold Re.match_here, token_at. split.
  - destruct (Str.strip_literal "access_token=" s) as [rest0|] eqn:E; [|discriminate].
    apply strip_literal_inv in E.
    destruct (Str.is_empty (Re.not_amp_run rest0)) eqn:Ee; [discriminate|].
    intros H. injection H as <-.
    destruct (not_amp_run_split rest0) as (rest & Hsplit & Hrest).
    exists rest. repeat split.
    + rewrite E. simpl. do 13 f_equal. exact Hsplit.
    + now apply is_empty_false.
    + apply not_amp_run_no_amp.
    + exact Hrest.
  - intros (rest & -> & Hne & Hamp & Hrest).
    change ("" ++ "access_token=" ++ tok ++ rest) with ("access_token=" ++ (tok ++ rest)).
    rewrite strip_literal_app, not_amp_run_app by assumption.
    apply is_empty_false in Hne. now rewrite Hne.
Qed.

Lemma token_at_cons (c : ascii) (s before tok : string) :
  token_at (String c s) (String c before) tok <-> token_at s before tok.
Proof.
  unfold token_at. split; intros (rest & E & H); exists rest; split; try exact H.
  - simpl in E. now injection E.
  - simpl. now f_equal.
Qed.

Lemma token_at_later (c : ascii) (s before tok : string) :
  token_at (String c s) before tok -> before <> "" ->
  exists before', before = String c before' /\ token_at s before' tok.
Proof.
  intros H Hne. destruct before as [|b before]; [congruence|].
  assert (b = c) as ->.
  { destruct H as (rest & E & _). simpl in E. now injection E. }
  exists before. split; [reflexivity|]. now apply token_at_cons in H.
Qed.

(** [re.search] returns the token of the leftmost occurrence that has one. *)
Lemma search_some (s tok : string) :
  Re.search s = Some tok ->
  exists before,
    token_at s before tok /\
    forall before' tok', token_at s before' tok' ->
      (String.length before <= String.length before')%nat.
Proof.
  revert tok. induction s as [|c s IH]; intros tok; simpl.
  - discriminate.
  - destruct (Re.match_here (String c s)) as [t|] eqn:E.
    + intros H. injection H as ->. exists "". split.
      * now apply match_here_spec.
      * intros. simpl. lia.
    + intros H. destruct (IH _ H) as (before & Hat & Hleft).
      exists (String c before). split.
      * now apply token_at_cons.
      * intros before' tok' H'.
        destruct before' as [|b before'].
        -- apply match_here_spec in H'. congruence.
        -- destruct (token_at_later _ _ _ _ H') as (b' & Eb & Hb'); [discriminate|].
           injection Eb as -> ->. simpl. apply le_n_S. eapply Hleft. exact Hb'.
Qed.

Lemma search_none (s : string) :
  Re.search s = None -> forall before tok, ~ token_at s before tok.
Proof.
  induction s as [|c s IH]; simpl.
  - intros _ before tok (rest & Hrest & _).
    destruct before; discriminate.
  - destruct (Re.match_here (String c s)) as [t|] eqn:E; [discriminate|].
    intros H before tok Hat.
    destruct before as [|b before].
    + apply match_here_spec in Hat. congruence.
    + destruct (token_at_later _ _ _ _ Hat) as (b' & Eb & Hb'); [discriminate|].
      exact (IH H _ _ Hb').
Qed.

(** Without the literal [access_token=] there is no token. *)
Lemma token_at_occurs (s before tok : string) :
  token_at s before tok -> occurs "access_token=" s.
Proof.
  intros (rest & E & _). exists before, (tok ++ rest).
  rewrite E. reflexivity.
Qed.

Lemma append_inv_head (p a b : string) : p ++ a = p ++ b -> a = b.
Proof.
  induction p as [|c p IH]; simpl; intros H.
  - exact H.
  - injection H as H. now apply IH.
Qed.

Lemma append_inv_last (a b : string) (c : ascii) :
  a ++ String c "" = b ++ String c "" -> a = b.
Proof.
  revert b. induction a as [|x a IH]; intros [|y b]; simpl; intros H.
  - reflexivity.
  - injection H as _ H. destruct b; discriminate.
  - injection H as _ H. destruct a; discriminate.
  - injection H as -> H. f_equal. now apply IH.
Qed.

Lemma headers_get_absent (name default : string) (hs : list (string * string)) :
  headers_mem name hs = false -> headers_get name default hs = default.
Proof.
  induction hs as [|[k v] hs IH]; simpl; intros H.
  - reflexivity.
  - apply orb_false_iff in H as [Hk Hrest]. rewrite Hk. now apply IH.
Qed.

(** ** The session authenticator *)

Section Authenticate.

Variable rt : Runtime.
Variable session : Session.

(** What is left of [authenticate] once the reauthorization call has been
    answered: the test of the status, then the search of the redirect target. *)
Lemma authenticate_reauthorized (st st' : State) (resp : Response) :
  reauthorized rt session st resp st' ->
  authenticate rt session st =
    (if negb ((status_code resp =? 301) || (status_code resp =? 303)) then
       Raise (Exception ("認証失敗 (status: " ++ Str.format_int (status_code resp) ++ ")"))
     else
       match Re.search (headers_get "Location" "" (resp_headers resp)) with
       | None => Raise (Exception "アクセストークン取得失敗")
       | Some token => Ok token
       end,
     st').
Proof.
  intros (r0 & st1 & st2 & H0 & H1 & H2).
  unfold authenticate, bind. rewrite H0, H1, H2.
  destruct (negb _); [reflexivity|].
  destruct (Re.search _); reflexivity.
Qed.

Lemma redirect_test (code : Z) :
  (code =? 301) || (code =? 303) = true <-> redirect code.
Proof.
  unfold redirect. rewrite orb_true_iff, !Z.eqb_eq. reflexivity.
Qed.

(** C2: when the reauthorization call is answered with a status other than
    301 and 303, [authenticate] raises the authentication failure whose
    message holds the decimal form of that status (which determines the
    status), and returns no token; with 301 or 303 it goes on to search the
    redirect target for the token. *)
Theorem authenticate_status (st st' : State) (resp : Response) :
  reauthorized rt session st resp st' ->
  (~ redirect (status_code resp) ->
     authenticate rt session st =
       (Raise (Exception ("認証失敗 (status: " ++ Str.format_int (status_code resp) ++ ")")),
        st') /\
     (forall token st'', authenticate rt session st <> (Ok token, st'')) /\
     (forall code,
        "認証失敗 (status: " ++ Str.format_int code ++ ")"
        = "認証失敗 (status: " ++ Str.format_int (status_code resp) ++ ")" ->
        code = status_code resp)) /\
  (redirect (status_code resp) ->
     authenticate rt session st =
       (match Re.search (headers_get "Location" "" (resp_headers resp)) with
        | None => Raise (Exception "アクセストークン取得失敗")
        | Some token => Ok token
        end, st')).
Proof.
  intros H. rewrite (authenticate_reauthorized _ _ _ H). split.
  - intros Hcode.
    destruct ((status_code resp =? 301) || (status_code resp =? 303)) eqn:E.
    + apply redirect_test in E. contradiction.
    + cbn [negb]. repeat split.
      * intros token st'' Habs. discriminate.
      * intros code Hmsg.
        apply append_inv_head in Hmsg. apply append_inv_last in Hmsg.
        now apply format_int_inj.
  - intros Hcode. apply redirect_test in Hcode. rewrite Hcode. reflexivity.
Qed.

(** C1: when the reauthorization call is answered with status 301 or 303,
    [authenticate] returns the token that follows the leftmost occurrence of
    [access_token=] in the [Location] header that has one, up to the next
    [&] or the end of the header; when the header has no such occurrence, in
    particular when [access_token=] does not occur in it, it raises the
    token-extraction error.  For a header
    [.../callback#access_token=ABC123&id_token=...&state=...] the token is
    [ABC123]. *)
Theorem authenticate_token (st st' : State) (resp : Response) :
  reauthorized rt session st resp st' ->
  redirect (status_code resp) ->
  let location := headers_get "Location" "" (resp_headers resp) in
  ((exists token before,
      authenticate rt session st = (Ok token, st') /\
      token_at location before token /\
      (forall before' token', token_at location before' token' ->
         (String.length before <= String.length before')%nat))
   \/
   (authenticate rt session st = (Raise (Exception "アクセストークン取得失敗"), st') /\
    forall before token, ~ token_at location before token)) /\
  (~ occurs "access_token=" location ->
     authenticate rt session st = (Raise (Exception "アクセストークン取得失敗"), st')) /\
  (location = ".../callback#access_token=ABC123&id_token=...&state=..." ->
     authenticate rt session st = (Ok "ABC123", st')).
Proof.
  intros H Hcode location.
  pose proof (authenticate_reauthorized _ _ _ H) as Hrun.
  apply redirect_test in Hcode. rewrite Hcode in Hrun. cbn [negb] in Hrun.
  fold location in Hrun.
  assert (Hcases :
    (exists token before,
       authenticate rt session st = (Ok token, st') /\
       token_at location before token /\
       (forall before' token', token_at location before' token' ->
          (String.length before <= String.length before')%nat))
    \/
    (authenticate rt session st = (Raise (Exception "アクセストークン取得失敗"), st') /\
     forall before token, ~ token_at location before token)).
  { destruct (Re.search location) as [token|] eqn:E.
    - left. destruct (search_some _ _ E) as (before & Hat & Hleft).
      exists token, before. auto.
    - right. split; [exact Hrun|]. now apply search_none. }
  split; [exact Hcases|]. split.
  - intros Hno. destruct Hcases as [(token & before & _ & Hat & _)|[Hr _]].
    + exfalso. apply Hno. eapply token_at_occurs. exact Hat.
    + exact Hr.
  - intros Hloc. rewrite Hloc in Hrun. exact Hrun.
Qed.

(** C9: when the reauthorization call is answered with status 301 or 303
    and the response has no [Location] header, the redirect target is taken
    to be the empty string and [authenticate] raises the token-extraction
    error, the one it raises when the header has no token. *)
Theorem authenticate_no_location (st st' : State) (resp : Response) :
  reauthorized rt session st resp st' ->
  redirect (status_code resp) ->
  headers_mem "Location" (resp_headers resp) = false ->
  headers_get "Location" "" (resp_headers resp) = "" /\
  authenticate rt session st = (Raise (Exception "アクセストークン取得失敗"), st').
Proof.
  intros H Hcode Hmem.
  pose proof (headers_get_absent "Location" "" _ Hmem) as Hget.
  split; [exact Hget|].
  rewrite (authenticate_reauthorized _ _ _ H).
  apply redirect_test in Hcode. rewrite Hcode, Hget. reflexivity.
Qed.

End Authenticate.

(** ** The storefront fetcher *)

Section Storefront.

Variable rt : Runtime.
Variable session : Session.

Lemma session_request_trace (req : Request) (st st' : State) (r : result Response) :
  session_request rt session req st = (r, st') ->
  trace st' = (trace st ++ [Sent session req])%list.
Proof.
  unfold session_request.
  destruct (network rt st session req); intros H; injection H as _ <-; reflexivity.
Qed.

Section Loop.

Variable hs : list (string * pyvalue).

(** A turn answered with 200 ends the loop with [resp.json()]. *)
Lemma storefront_loop_hit (variant : string * string) (rest : list (string * string))
    (st st1 : State) (resp : Response) :
  session_request rt session (storefront_request hs variant) st = (Ok resp, st1) ->
  status_code resp = 200 ->
  storefront_loop rt session hs (variant :: rest) st = resp_json resp st1.
Proof.
  intros Hreq Hcode. simpl. unfold bind. rewrite Hreq, Hcode. reflexivity.
Qed.

(** The loop passes over the variants that are refused. *)
Lemma storefront_loop_refused (before rest : list (string * string)) (st st1 : State) :
  refused rt session hs st before st1 ->
  storefront_loop rt session hs (before ++ rest) st = storefront_loop rt session hs rest st1.
Proof.
  induction 1 as [st|st variant before resp sa sb Hreq Hcode _ IH].
  - reflexivity.
  - simpl. unfold bind. rewrite Hreq.
    apply Z.eqb_neq in Hcode. rewrite Hcode. exact IH.
Qed.

Lemma refused_trace (before : list (string * string)) (st st1 : State) :
  refused rt session hs st before st1 ->
  trace st1 = (trace st ++ attempts session hs before)%list.
Proof.
  induction 1 as [st|st variant before resp sa sb Hreq _ _ IH].
  - simpl. now rewrite app_nil_r.
  - rewrite IH, (session_request_trace _ _ _ _ Hreq), <- app_assoc. reflexivity.
Qed.

Lemma attempts_app (xs ys : list (string * string)) :
  attempts session hs (xs ++ ys) = (attempts session hs xs ++ attempts session hs ys)%list.
Proof. apply map_app. Qed.

(** The run of the loop up to its first 200. *)
Lemma storefront_loop_first_200 (before rest : list (string * string))
    (variant : string * string) (st st1 st2 : State) (resp : Response) :
  refused rt session hs st before st1 ->
  session_request rt session (storefront_request hs variant) st1 = (Ok resp, st2) ->
  status_code resp = 200 ->
  storefront_loop rt session hs (before ++ variant :: rest) st = resp_json resp st2 /\
  trace st2 = (trace st ++ attempts session hs (before ++ [variant]))%list.
Proof.
  intros Href Hreq Hcode. split.
  - rewrite (storefront_loop_refused _ _ _ _ Href).
    now apply storefront_loop_hit.
  - rewrite (session_request_trace _ _ _ _ Hreq), (refused_trace _ _ _ Href).
    rewrite attempts_app, <- app_assoc. reflexivity.
Qed.

End Loop.

Variable access_token : string.
Variables entitlements_token puuid client_version : pyvalue.

Local Abbreviation hs := (storefront_headers access_token entitlements_token client_version).

(** C3: [get_storefront] tries GET v2, POST v3 with the body [{}] and GET v1
    of the storefront of the account, in this order; when the variants
    before one are answered with a status other than 200 and that one with
    200 and a JSON document, it returns the document, and it has sent the
    requests up to that one and no other. *)
Theorem get_storefront_first_200 (before rest : list (string * string))
    (variant : string * string) (st st1 st2 : State) (resp : Response) (doc : pyvalue) :
  storefront_variants rt puuid = (before ++ variant :: rest)%list ->
  refused rt session hs st before st1 ->
  session_request rt session (storefront_request hs variant) st1 = (Ok resp, st2) ->
  status_code resp = 200 ->
  resp_body resp = JsonValue doc ->
  get_storefront rt session access_token entitlements_token puuid client_version st
    = (Ok doc, st2) /\
  trace st2 = (trace st ++ attempts session hs (before ++ [variant]))%list /\
  map (storefront_request hs) (storefront_variants rt puuid) =
    [ {| method := "GET";
         url := "https://pd.ap.a.pvp.net/store/v2/storefront/" ++ py_str rt puuid;
         headers := hs; json := None;
         params := []; allow_redirects := true; timeout := None |};
      {| method := "POST";
         url := "https://pd.ap.a.pvp.net/store/v3/storefront/" ++ py_str rt puuid;
         headers := hs; json := Some (PDict []);
         params := []; allow_redirects := true; timeout := None |};
      {| method := "GET";
         url := "https://pd.ap.a.pvp.net/store/v1/storefront/" ++ py_str rt puuid;
         headers := hs; json := None;
         params := []; allow_redirects := true; timeout := None |} ].
Proof.
  intros Hvs Href Hreq Hcode Hbody.
  destruct (storefront_loop_first_200 hs before rest variant _ _ _ _ Href Hreq Hcode)
    as [Hrun Htrace].
  repeat split.
  - unfold get_storefront. rewrite Hvs, Hrun.
    unfold resp_json. rewrite Hbody. reflexivity.
  - exact Htrace.
Qed.

(** C4: when the three variants are all answered with a status other than
    200, [get_storefront] raises one exception, with the storefront-retrieval
    message whatever the three answers were, after exactly the three
    requests. *)
Theorem get_storefront_exhausted (st st' : State) :
  refused rt session hs st (storefront_variants rt puuid) st' ->
  get_storefront rt session access_token entitlements_token puuid client_version st
    = (Raise (Exception "ストアフロント取得失敗"), st') /\
  trace st' = (trace st ++ attempts session hs (storefront_variants rt puuid))%list /\
  List.length (attempts session hs (storefront_variants rt puuid)) = 3%nat.
Proof.
  intros Href. repeat split.
  - unfold get_storefront.
    rewrite <- (app_nil_r (storefront_variants rt puuid)).
    rewrite (storefront_loop_refused _ _ _ _ _ Href). reflexivity.
  - now apply refused_trace.
Qed.

End Storefront.

(** ** The client version resolver *)

Section ClientVersion.

Variable rt : Runtime.
Variable session : Session.

(** The [try] block never raises, and returns a version exactly when the
    live lookup yields one. *)
Lemma live_client_version_spec (st : State) :
  exists found st',
    live_client_version rt session st = (Ok found, st') /\
    forall version, found = Some version <-> version_found rt session st version.
Proof.
  unfold live_client_version, try_except, bind, session_request, version_found.
  destruct (network rt st session version_get) as [resp|e|stored e] eqn:Enet.
  2,3: (eexists _, _; split; [reflexivity|]; intros v; split; [discriminate|];
        intros (r & doc & data & Hn & _); discriminate).
  destruct (status_code resp =? 200) eqn:Ecode.
  2:{ eexists _, _. split; [reflexivity|]. intros v. split; [discriminate|].
      intros (r & doc & data & Hn & Hc & _). injection Hn as <-.
      apply Z.eqb_neq in Ecode. contradiction. }
  apply Z.eqb_eq in Ecode.
  unfold resp_json.
  destruct (resp_body resp) as [doc|msg] eqn:Ebody.
  2:{ eexists _, _. split; [reflexivity|]. intros v. split; [discriminate|].
      intros (r & doc & data & Hn & _ & Hb & _). injection Hn as <-. congruence. }
  destruct doc as [| | | | |items|items];
    try (eexists _, _; split; [reflexivity|]; intros v; split; [discriminate|];
         intros (r & doc & data & Hn & _ & Hb & _); injection Hn as <-; congruence).
  cbn [method_get ret].
  destruct (dict_lookup "data" items) as [data|] eqn:Edata.
  2:{ eexists _, _. split; [reflexivity|]. intros v. split; [discriminate|].
      intros (r & doc & data & Hn & _ & Hb & Hd & _). injection Hn as <-. congruence. }
  destruct data as [| | | | |ditems|ditems];
    try (eexists _, _; split; [reflexivity|]; intros v; split; [discriminate|];
         intros (r & doc & data & Hn & _ & Hb & Hd & _); injection Hn as <-; congruence).
  cbn [method_get ret].
  destruct (dict_lookup "riotClientVersion" ditems) as [version|] eqn:Ever.
  2:{ eexists _, _. split; [reflexivity|]. intros v. split; [discriminate|].
      intros (r & doc & data & Hn & _ & Hb & Hd & Hv & _). injection Hn as <-. congruence. }
  destruct (truthy version) eqn:Etrue.
  - eexists _, _. split; [reflexivity|]. intros v. split.
    + intros E. injection E as <-. exists resp, items, ditems.
      repeat split; assumption.
    + intros (r & doc & data & Hn & _ & Hb & Hd & Hv & _). injection Hn as <-. congruence.
  - eexists _, _. split; [reflexivity|]. intros v. split; [discriminate|].
    intros (r & doc & data & Hn & _ & Hb & Hd & Hv & Ht). injection Hn as <-. congruence.
Qed.

(** C6: with no override configured, [get_client_version] never raises; it
    returns the version the live lookup yields when there is one (status
    200, a true value under [data], [riotClientVersion]) and the hardcoded
    version in every other case: the call fails (time-out, network error),
    the status is not 200, the field is missing or empty. *)
Theorem get_client_version_fallback (st : State) :
  CLIENT_VERSION_OVERRIDE rt = None ->
  exists version st',
    get_client_version rt session st = (Ok version, st') /\
    ((forall found, ~ version_found rt session st found) ->
       version = PStr FALLBACK_VERSION) /\
    (forall found, version_found rt session st found -> version = found) /\
    (forall e, network rt st session version_get = Fails e ->
       version = PStr FALLBACK_VERSION) /\
    (forall resp, network rt st session version_get = Responds resp ->
       status_code resp <> 200 -> version = PStr FALLBACK_VERSION).
Proof.
  intros Hnone.
  destruct (live_client_version_spec st) as (found & st' & Hrun & Hspec).
  unfold get_client_version. rewrite Hnone. cbn [truthy_opt].
  unfold bind. rewrite Hrun.
  destruct found as [v|].
  - exists v, st'. split; [reflexivity|].
    assert (Hv : version_found rt session st v) by now apply Hspec.
    repeat split.
    + intros Hno. exfalso. exact (Hno _ Hv).
    + intros v' Hv'. apply Hspec in Hv'. congruence.
    + intros e He. destruct Hv as (r & _ & _ & Hn & _). congruence.
    + intros r Hr Hcode. destruct Hv as (r' & _ & _ & Hn & Hc & _). congruence.
  - exists (PStr FALLBACK_VERSION), st'. split; [reflexivity|].
    repeat split; try reflexivity.
    intros v Hv. apply Hspec in Hv. discriminate.
Qed.

(** C5, as the code has it: when the [CLIENT_VERSION] variable is set and is
    not empty once its white space is trimmed, [get_client_version] returns
    the trimmed string (the configured string itself when it has no white
    space around it) and does nothing else: no request is sent, whatever the
    network would answer. *)
Theorem get_client_version_override (st : State) (configured : string) :
  getenv rt "CLIENT_VERSION" = Some configured ->
  Str.strip configured <> "" ->
  get_client_version rt session st = (Ok (PStr (Str.strip configured)), st) /\
  (Str.strip configured = configured ->
     get_client_version rt session st = (Ok (PStr configured), st)).
Proof.
  intros Henv Hne.
  assert (Hrun : get_client_version rt session st = (Ok (PStr (Str.strip configured)), st)).
  { unfold get_client_version, CLIENT_VERSION_OVERRIDE. rewrite Henv.
    apply is_empty_false in Hne. rewrite Hne. simpl. rewrite Hne. reflexivity. }
  split; [exact Hrun|].
  intros Hsame. rewrite Hsame in Hrun. exact Hrun.
Qed.

End ClientVersion.

(** ** Nothing but [main] prints *)

Section Quiet.

Variable rt : Runtime.



















End Quiet.

(** ** The top level *)

Section Main.

Variable rt : Runtime.

(** With a credential, [main] prints one line: the document [fetch]
    returns, or the error [print] raises on it, or the exception [fetch]
    raises. *)
Lemma main_run (st : State) :
  truthy_opt (SSID rt) = true ->
  main rt st =
    match fetch rt st with
    | (Ok storefront, st1) =>
        emit (Printed (match json_dumps rt storefront with
                       | Encodable line => line
                       | Unencodable error => "エラー: " ++ error
                       end)) st1
    | (Raise e, st1) =>
        emit (Printed (if is_proxy_error e
                       then "エラー: プロキシ接続失敗。PROXY設定を確認してください。"
                       else "エラー: " ++ str_exn e)) st1
    end.
Proof.
  intros Hssid. unfold main. rewrite Hssid. cbn [negb].
  unfold try_except, bind.
  destruct (fetch rt st) as [[doc|e] st1].
  - destruct (json_dumps rt doc); reflexivity.
  - destruct (is_proxy_error e); reflexivity.
Qed.

Lemma fetch_prepared (st0 st : State) (session : Session) (access_token : string)
    (entitlements_token puuid client_version : pyvalue) :
  prepared rt st0 session access_token entitlements_token puuid client_version st ->
  fetch rt st0 =
    get_storefront rt session access_token entitlements_token puuid client_version st.
Proof.
  intros (sa & sb & sc & sd & H1 & H2 & H3 & H4 & H5).
  unfold fetch, bind. rewrite H1, H2, H3, H4, H5. reflexivity.
Qed.

(** C7: when the [SSID] variable is unset or empty, [main] prints the
    configuration error and returns; the line is all it adds to the trace:
    no session is created and no request is sent. *)
Theorem main_missing_credential (st : State) :
  getenv rt "SSID" = None \/ getenv rt "SSID" = Some "" ->
  main rt st =
    (Ok tt,
     {| jar := jar st;
        trace := trace st ++ [Printed "エラー: .env に SSID が設定されていません。"] |}).
Proof.
  intros H. unfold main, SSID. destruct H as [-> | ->]; reflexivity.
Qed.




(** The layout of a nested document whose strings are not ASCII. *)
Example json_encode_layout :
  Json.encode (fun _ => "") 0 (PDict [("名前", PList [PInt 1; PStr "スキン"])])
  = "{" ++ Json.newline
    ++ "  " ++ Json.quote ++ "名前" ++ Json.quote ++ ": [" ++ Json.newline
    ++ "    1," ++ Json.newline
    ++ "    " ++ Json.quote ++ "スキン" ++ Json.quote ++ Json.newline
    ++ "  ]" ++ Json.newline
    ++ "}".
Proof. reflexivity. Qed.


Variable session : Session.
Variable access_token : string.
Variables entitlements_token puuid client_version : pyvalue.

Local Abbreviation hs := (storefront_headers access_token entitlements_token client_version).

(** C10: when the first variant answered with status 200 has a body that is
    not valid JSON, [get_storefront] raises the decoding error of
    [resp.json()], not the storefront-retrieval exception, and has sent no
    request after that one; [main] then prints the error prefix followed by
    the message of the decoding error. *)
Theorem get_storefront_invalid_json (before rest : list (string * string))
    (variant : string * string) (st st1 st2 : State) (resp : Response) (msg : string) :
  storefront_variants rt puuid = (before ++ variant :: rest)%list ->
  refused rt session hs st before st1 ->
  session_request rt session (storefront_request hs variant) st1 = (Ok resp, st2) ->
  status_code resp = 200 ->
  resp_body resp = JsonInvalid msg ->
  get_storefront rt session access_token entitlements_token puuid client_version st
    = (Raise (JSONDecodeError msg), st2) /\
  JSONDecodeError msg <> Exception "ストアフロント取得失敗" /\
  trace st2 = (trace st ++ attempts session hs (before ++ [variant]))%list /\
  (forall st0,
     truthy_opt (SSID rt) = true ->
     prepared rt st0 session access_token entitlements_token puuid client_version st ->
     main rt st0 =
       (Ok tt, {| jar := jar st2; trace := trace st2 ++ [Printed ("エラー: " ++ msg)] |})).
Proof.
  intros Hvs Href Hreq Hcode Hbody.
  destruct (storefront_loop_first_200 rt session hs before rest variant _ _ _ _
              Href Hreq Hcode) as [Hrun Htrace].
  assert (Hget :
    get_storefront rt session access_token entitlements_token puuid client_version st
    = (Raise (JSONDecodeError msg), st2)).
  { unfold get_storefront. rewrite Hvs, Hrun.
    unfold resp_json. rewrite Hbody. reflexivity. }
  repeat split.
  - exact Hget.
  - discriminate.
  - exact Htrace.
  - intros st0 Hssid Hprep.
    rewrite (main_run st0 Hssid), (fetch_prepared _ _ _ _ _ _ _ Hprep), Hget.
    reflexivity.
Qed.

End Main.

(** ** The properties at work *)

(** The hypothesis on the handshake, for a runtime that answers both of its
    calls. *)
Ltac run_handshake := unfold reauthorized; do 3 eexists; repeat split; reflexivity.

Lemma authenticate_token_witness :
  (exists st', authenticate Demo.redirected Demo.session initial = (Ok "ABC123", st')) /\
  (exists st',
     authenticate Demo.no_location Demo.session initial
     = (Raise (Exception "アクセストークン取得失敗"), st')).
Proof.
  split.
  - eexists.
    eassert (H : reauthorized Demo.redirected Demo.session initial _ _) by run_handshake.
    refine (proj2 (proj2 (authenticate_token _ _ _ _ _ H _)) _).
    + right. reflexivity.
    + reflexivity.
  - eexists.
    eassert (H : reauthorized Demo.no_location Demo.session initial _ _) by run_handshake.
    refine (proj1 (proj2 (authenticate_token _ _ _ _ _ H _)) _).
    + right. reflexivity.
    + intros (before & rest & E). destruct before; discriminate E.
Defined.

Lemma authenticate_status_witness :
  (exists st',
     authenticate Demo.forbidden Demo.session initial
     = (Raise (Exception "認証失敗 (status: 403)"), st')) /\
  (exists st', authenticate Demo.redirected Demo.session initial = (Ok "ABC123", st')).
Proof.
  split.
  - eexists.
    eassert (H : reauthorized Demo.forbidden Demo.session initial _ _) by run_handshake.
    refine (proj1 (proj1 (authenticate_status _ _ _ _ _ H) _)).
    intros [E|E]; discriminate E.
  - eexists.
    eassert (H : reauthorized Demo.redirected Demo.session initial _ _) by run_handshake.
    refine (proj2 (authenticate_status _ _ _ _ _ H) _).
    right. reflexivity.
Defined.

Lemma authenticate_no_location_witness :
  exists st',
    authenticate Demo.no_location Demo.session initial
    = (Raise (Exception "アクセストークン取得失敗"), st').
Proof.
  eexists.
  eassert (H : reauthorized Demo.no_location Demo.session initial _ _) by run_handshake.
  refine (proj2 (authenticate_no_location _ _ _ _ _ H _ _)).
  - right. reflexivity.
  - reflexivity.
Defined.

Lemma get_storefront_first_200_witness :
  exists st',
    get_storefront Demo.third_serves Demo.session "T1" (PStr "E1") (PStr "P1") (PStr "V1")
      initial
    = (Ok (PDict [("a", PInt 1)]), st') /\
    map method (requests (trace st')) = ["GET"; "POST"; "GET"] /\
    map url (requests (trace st'))
    = [Demo.store "v2"; Demo.store "v3"; Demo.store "v1"].
Proof.
  pose (hs := storefront_headers "T1" (PStr "E1") (PStr "V1")).
  eassert (Href : refused Demo.third_serves Demo.session hs initial
                    [("GET", Demo.store "v2"); ("POST", Demo.store "v3")] _).
  { eapply refused_cons; [reflexivity | discriminate |].
    eapply refused_cons; [reflexivity | discriminate |].
    apply refused_nil. }
  match type of Href with
  | refused _ _ _ _ _ ?st1 =>
      eassert (Hreq : session_request Demo.third_serves Demo.session
                        (storefront_request hs ("GET", Demo.store "v1")) st1 = (Ok _, _))
        by reflexivity
  end.
  destruct (get_storefront_first_200 Demo.third_serves Demo.session
              "T1" (PStr "E1") (PStr "P1") (PStr "V1")
              [("GET", Demo.store "v2"); ("POST", Demo.store "v3")] []
              ("GET", Demo.store "v1") initial _ _ _ _
              eq_refl Href Hreq eq_refl eq_refl) as (Hrun & Htrace & _).
  eexists. split; [exact Hrun|].
  rewrite Htrace. split; reflexivity.
Defined.

Lemma get_storefront_exhausted_witness :
  exists st',
    get_storefront Demo.all_refuse Demo.session "T1" (PStr "E1") (PStr "P1") (PStr "V1")
      initial
    = (Raise (Exception "ストアフロント取得失敗"), st') /\
    List.length (requests (trace st')) = 3%nat.
Proof.
  pose (hs := storefront_headers "T1" (PStr "E1") (PStr "V1")).
  eassert (Href : refused Demo.all_refuse Demo.session hs initial
                    (storefront_variants Demo.all_refuse (PStr "P1")) _).
  { eapply refused_cons; [reflexivity | discriminate |].
    eapply refused_cons; [reflexivity | discriminate |].
    eapply refused_cons; [reflexivity | discriminate |].
    apply refused_nil. }
  destruct (get_storefront_exhausted Demo.all_refuse Demo.session
              "T1" (PStr "E1") (PStr "P1") (PStr "V1") initial _ Href)
    as (Hrun & Htrace & _).
  eexists. split; [exact Hrun|].
  rewrite Htrace. reflexivity.
Defined.

Lemma get_client_version_override_witness :
  get_client_version (Demo.overridden "custom-version") Demo.session initial
  = (Ok (PStr "custom-version"), initial).
Proof.
  refine (proj2 (get_client_version_override (Demo.overridden "custom-version")
                   Demo.session initial "custom-version" eq_refl _) _).
  - vm_compute. discriminate.
  - reflexivity.
Defined.

(** C5 as it is written fails where the configured string has white space
    around it: the resolver returns the string without it. *)
Lemma get_client_version_override_not_verbatim :
  getenv (Demo.overridden " custom-version ") "CLIENT_VERSION" = Some " custom-version " /\
  Str.strip " custom-version " <> "" /\
  get_client_version (Demo.overridden " custom-version ") Demo.session initial
  = (Ok (PStr "custom-version"), initial) /\
  get_client_version (Demo.overridden " custom-version ") Demo.session initial
  <> (Ok (PStr " custom-version "), initial).
Proof.
  repeat split; try reflexivity; vm_compute; discriminate.
Qed.

Lemma get_client_version_fallback_witness :
  exists st',
    get_client_version Demo.offline Demo.session initial
    = (Ok (PStr "release-12.02-shipping-9-4226954"), st').
Proof.
  destruct (get_client_version_fallback Demo.offline Demo.session initial eq_refl)
    as (version & st' & Hrun & _ & _ & Hfails & _).
  exists st'. rewrite Hrun.
  rewrite (Hfails (RequestException "connection refused") eq_refl). reflexivity.
Defined.

Lemma main_missing_credential_witness :
  main Demo.offline initial
  = (Ok tt,
     {| jar := []; trace := [Printed "エラー: .env に SSID が設定されていません。"] |}).
Proof.
  exact (main_missing_credential Demo.offline initial (or_introl eq_refl)).
Defined.

Lemma get_storefront_invalid_json_witness :
  exists st',
    main Demo.garbled_store initial = (Ok tt, st') /\
    printed (trace st') = ["エラー: Expecting value: line 1 column 1 (char 0)"] /\
    map url (requests (trace st'))
    = [AUTH_COOKIES_URL; AUTH_REAUTH_URL; ENTITLEMENTS_URL; USERINFO_URL; VERSION_URL;
       Demo.store "v2"].
Proof.
  eassert (Hprep : prepared Demo.garbled_store initial _ _ _ _ _ _).
  { unfold prepared. do 4 eexists. repeat split; reflexivity. }
  match type of Hprep with
  | prepared _ _ ?session ?access_token ?entitlements_token ?puuid ?client_version ?st =>
      eassert (Hreq : session_request Demo.garbled_store session
                        (storefront_request
                           (storefront_headers access_token entitlements_token
                              client_version)
                           ("GET", Demo.store "v2")) st
                      = (Ok _, _)) by reflexivity;
      destruct (get_storefront_invalid_json Demo.garbled_store session
                  access_token entitlements_token puuid client_version
                  [] _ ("GET", Demo.store "v2") st st _ _ _
                  eq_refl (refused_nil _ _ _ _) Hreq eq_refl eq_refl)
        as (_ & _ & _ & Hmain)
  end.
  eexists. split; [exact (Hmain _ eq_refl Hprep)|].
  split; reflexivity.
Defined.

(** ** The requests of a run *)

Section Schedule.

Variable rt : Runtime.

Lemma get_session_run (st : State) :
  get_session rt st =
    (Ok (configured_session rt),
     {| jar := jar st; trace := trace st ++ [SessionCreated] |}).
Proof.
  unfold get_session, configured_session, bind, emit, ret. simpl.
  destruct (PROXY rt) as [p|]; [|reflexivity].
  destruct p; reflexivity.
Qed.

Variable session : Session.

Local Abbreviation sent := (map (Sent session)).

(** [authenticate] sends its first request, and its second if the first is
    answered; it returns only after both. *)
Lemma authenticate_work (st : State) :
  exists n,
    (n = 1 \/ n = 2)%nat /\
    trace (snd (authenticate rt session st))
    = (trace st ++ sent (firstn n [authorization_post; reauthorization_get]))%list /\
    (forall token, fst (authenticate rt session st) = Ok token -> n = 2%nat).
Proof.
  unfold authenticate, bind.
  destruct (session_request rt session authorization_post st) as [[r0|e] st1] eqn:E1.
  2:{ exists 1%nat. repeat split; [now left | | discriminate].
      exact (session_request_trace _ _ _ _ _ _ E1). }
  unfold cookies_set at 1.
  destruct (session_request rt session reauthorization_get _) as [[resp|e] st2] eqn:E2;
    exists 2%nat; (split; [now right|]); (split; [|reflexivity]).
  - destruct (negb _); [|destruct (Re.search _)]; simpl;
      rewrite (session_request_trace _ _ _ _ _ _ E2); simpl;
      rewrite (session_request_trace _ _ _ _ _ _ E1), <- app_assoc; reflexivity.
  - simpl. rewrite (session_request_trace _ _ _ _ _ _ E2). simpl.
    rewrite (session_request_trace _ _ _ _ _ _ E1), <- app_assoc. reflexivity.
Qed.

(** Each resolver sends its one request, whatever comes of it. *)
Lemma get_entitlements_token_work (access_token : string) (st : State) :
  trace (snd (get_entitlements_token rt session access_token st))
  = (trace st ++ [Sent session (entitlements_post access_token)])%list.
Proof.
  unfold get_entitlements_token, bind. fold (entitlements_post access_token).
  destruct (session_request rt session _ st) as [[resp|e] st1] eqn:E1;
    pose proof (session_request_trace _ _ _ _ _ _ E1) as Ht; [|exact Ht].
  unfold raise_for_status, resp_json.
  repeat match goal with
         | |- context [if ?b then _ else _] => destruct b
         end; try exact Ht.
  destruct (resp_body resp) as [doc|msg]; [|exact Ht].
  destruct doc; simpl; try exact Ht.
  destruct (dict_lookup _ _); exact Ht.
Qed.

Lemma get_puuid_work (access_token : string) (st : State) :
  trace (snd (get_puuid rt session access_token st))
  = (trace st ++ [Sent session (userinfo_get access_token)])%list.
Proof.
  unfold get_puuid, bind. fold (userinfo_get access_token).
  destruct (session_request rt session _ st) as [[resp|e] st1] eqn:E1;
    pose proof (session_request_trace _ _ _ _ _ _ E1) as Ht; [|exact Ht].
  unfold raise_for_status, resp_json.
  repeat match goal with
         | |- context [if ?b then _ else _] => destruct b
         end; try exact Ht.
  destruct (resp_body resp) as [doc|msg]; [|exact Ht].
  destruct doc; simpl; try exact Ht.
  destruct (dict_lookup _ _); exact Ht.
Qed.

(** The version resolver returns a value in every configuration; it sends
    the version request when no override is in force, and nothing else. *)
Lemma get_client_version_work (st : State) :
  (exists version, fst (get_client_version rt session st) = Ok version) /\
  trace (snd (get_client_version rt session st))
  = (trace st ++ sent (if truthy_opt (CLIENT_VERSION_OVERRIDE rt)
                       then []
                       else [version_get]))%list.
Proof.
  unfold get_client_version.
  destruct (truthy_opt (CLIENT_VERSION_OVERRIDE rt)).
  - simpl. rewrite app_nil_r. eauto.
  - destruct (live_client_version_spec rt session st) as (found & st' & Hrun & _).
    unfold bind. rewrite Hrun.
    assert (Ht : trace st' = (trace st ++ [Sent session version_get])%list).
    { revert Hrun. unfold live_client_version, try_except, bind.
      destruct (session_request rt session version_get st) as [[resp|e] st1] eqn:E1;
        pose proof (session_request_trace _ _ _ _ _ _ E1) as Ht.
      2:{ intros H. injection H as _ <-. exact Ht. }
      destruct (status_code resp =? 200).
      2:{ intros H. injection H as _ <-. exact Ht. }
      unfold resp_json.
      destruct (resp_body resp) as [doc|msg].
      2:{ intros H. injection H as _ <-. exact Ht. }
      destruct doc as [| | | | | |items];
        try (intros H; injection H as _ <-; exact Ht).
      cbn [method_get ret].
      destruct (dict_lookup "data" items) as [data|];
        [destruct data as [| | | | | |ditems]|];
        try (intros H; injection H as _ <-; exact Ht).
      cbn [method_get ret].
      destruct (dict_lookup "riotClientVersion" ditems) as [v|];
        [destruct (truthy v)|];
        intros H; injection H as _ <-; exact Ht. }
    destruct found; simpl; eauto.
Qed.

(** The loop sends the requests of its variants in order, at least one and
    not necessarily all. *)
Lemma storefront_loop_work (hs : list (string * pyvalue))
    (variants : list (string * string)) (st : State) :
  exists n,
    (n <= List.length variants)%nat /\
    (variants <> [] -> (1 <= n)%nat) /\
    trace (snd (storefront_loop rt session hs variants st))
    = (trace st ++ sent (firstn n (map (storefront_request hs) variants)))%list.
Proof.
  revert st. induction variants as [|variant rest IH]; intros st.
  - exists 0%nat. simpl. rewrite app_nil_r. repeat split; [lia | congruence].
  - simpl. unfold bind.
    destruct (session_request rt session _ st) as [[resp|e] st1] eqn:E1;
      pose proof (session_request_trace _ _ _ _ _ _ E1) as Ht.
    2:{ exists 1%nat. simpl. repeat split; [lia | lia | exact Ht]. }
    destruct (status_code resp =? 200).
    + exists 1%nat. simpl. repeat split; [lia | lia |].
      unfold resp_json. destruct (resp_body resp); exact Ht.
    + destruct (IH st1) as (n & Hn & _ & Hrest).
      exists (S n). simpl. repeat split; [lia | lia |].
      rewrite Hrest, Ht, <- app_assoc. reflexivity.
Qed.

Lemma plan_length (access_token : string)
    (entitlements_token puuid client_version : pyvalue) :
  (List.length (plan rt access_token entitlements_token puuid client_version) <= 8)%nat.
Proof.
  unfold plan. destruct (truthy_opt (CLIENT_VERSION_OVERRIDE rt)); simpl; lia.
Qed.

End Schedule.

Section RunSchedule.

Variable rt : Runtime.

Local Abbreviation sent := (map (Sent (configured_session rt))).

(** The steps of [fetch] send a prefix of the plan, through the one session. *)
Lemma fetch_schedule (st : State) :
  exists access_token entitlements_token puuid client_version n,
    (1 <= n)%nat /\
    trace (snd (fetch rt st))
    = (trace st ++ SessionCreated
         :: sent (firstn n (plan rt access_token entitlements_token puuid
                              client_version)))%list.
Proof.
  unfold fetch, bind. rewrite get_session_run.
  set (session := configured_session rt).
  set (sa := {| jar := jar st; trace := trace st ++ [SessionCreated] |}).
  destruct (authenticate_work rt session sa) as (n1 & Hn1 & Ht1 & Hok1).
  destruct (authenticate rt session sa) as [[access_token|e] sb].
  2:{ exists "", PNone, PNone, PNone, n1. simpl in Ht1. split; [lia|].
      simpl. rewrite Ht1. unfold sa. simpl. rewrite <- app_assoc.
      destruct Hn1 as [-> | ->]; reflexivity. }
  rewrite (Hok1 access_token eq_refl) in Ht1. simpl in Ht1. clear Hn1 Hok1 n1.
  pose proof (get_entitlements_token_work rt session access_token sb) as Ht2.
  destruct (get_entitlements_token rt session access_token sb)
    as [[entitlements_token|e] sc].
  2:{ exists access_token, PNone, PNone, PNone, 3%nat. split; [lia|].
      simpl in *. rewrite Ht2, Ht1. unfold sa. simpl.
      rewrite <- !app_assoc. reflexivity. }
  pose proof (get_puuid_work rt session access_token sc) as Ht3.
  destruct (get_puuid rt session access_token sc) as [[puuid|e] sd].
  2:{ exists access_token, entitlements_token, PNone, PNone, 4%nat. split; [lia|].
      simpl in *. rewrite Ht3, Ht2, Ht1. unfold sa. simpl.
      rewrite <- !app_assoc. reflexivity. }
  destruct (get_client_version_work rt session sd) as ((cv & Hcv) & Ht4).
  destruct (get_client_version rt session sd) as [[client_version|e] se];
    [|discriminate].
  unfold get_storefront.
  destruct (storefront_loop_work rt session
              (storefront_headers access_token entitlements_token client_version)
              (storefront_variants rt puuid) se) as (n5 & _ & _ & Ht5).
  simpl in *. rewrite Ht5, Ht4, Ht3, Ht2, Ht1. unfold sa. simpl.
  exists access_token, entitlements_token, puuid, client_version.
  unfold plan.
  destruct (truthy_opt (CLIENT_VERSION_OVERRIDE rt)).
  - exists (4 + n5)%nat. split; [lia|].
    simpl. rewrite <- !app_assoc. reflexivity.
  - exists (5 + n5)%nat. split; [lia|].
    simpl. rewrite <- !app_assoc. reflexivity.
Qed.

(** X1: what a run of [main] adds to the trace is, with a credential, the
    creation of the session, then a non-empty prefix of the plan of at most
    eight requests, all sent through the session [get_session] configured,
    then one printed line; without a credential it is the printed line
    alone. *)
Theorem main_schedule (st : State) :
  exists access_token entitlements_token puuid client_version n line,
    let requests_planned :=
      plan rt access_token entitlements_token puuid client_version in
    trace (snd (main rt st))
    = (trace st
       ++ (if truthy_opt (SSID rt)
           then SessionCreated :: sent (firstn n requests_planned)
           else [])
       ++ [Printed line])%list /\
    (1 <= n)%nat /\
    (List.length (firstn n requests_planned) <= 8)%nat.
Proof.
  destruct (fetch_schedule st)
    as (access_token & entitlements_token & puuid & client_version & n & Hn & Ht).
  exists access_token, entitlements_token, puuid, client_version, n.
  assert (Hlen : (List.length (firstn n (plan rt access_token entitlements_token puuid
                                           client_version)) <= 8)%nat).
  { rewrite length_firstn.
    pose proof (plan_length rt access_token entitlements_token puuid client_version).
    lia. }
  destruct (truthy_opt (SSID rt)) eqn:Hssid.
  - rewrite (main_run rt st Hssid).
    destruct (fetch rt st) as [[doc|e] st1]; simpl in Ht;
      eexists; (split; [|split; [exact Hn | exact Hlen]]);
      simpl; rewrite Ht, <- app_assoc; reflexivity.
  - unfold main. rewrite Hssid. simpl.
    eexists. split; [reflexivity|]. split; [exact Hn | exact Hlen].
Qed.

End RunSchedule.

(** ** Failures of the transport and of the resolvers *)

Section Failures.

Variable rt : Runtime.
Variable session : Session.

(** X2: [authenticate] sends the authorization POST, then the
    reauthorization GET, and nothing else; it returns a token only after
    both.  When the POST raises, the exception is raised as it is, the GET is
    not sent and the credential is not put in the jar: the jar is as it was
    if no hop of the POST was answered, and holds the cookies of the hops
    that were answered otherwise.  When the GET raises, the exception is
    raised as it is. *)
Theorem authenticate_requests (st : State) :
  (exists n,
     (n = 1 \/ n = 2)%nat /\
     trace (snd (authenticate rt session st))
     = (trace st
        ++ map (Sent session) (firstn n [authorization_post; reauthorization_get]))%list /\
     (forall token, fst (authenticate rt session st) = Ok token -> n = 2%nat)) /\
  (forall e,
     network rt st session authorization_post = Fails e ->
     authenticate rt session st
     = (Raise e,
        {| jar := jar st; trace := trace st ++ [Sent session authorization_post] |})) /\
  (forall stored e,
     network rt st session authorization_post = Breaks stored e ->
     authenticate rt session st
     = (Raise e,
        {| jar := fold_left jar_store stored (jar st);
           trace := trace st ++ [Sent session authorization_post] |})) /\
  (forall r0 st1 e st2,
     session_request rt session authorization_post st = (Ok r0, st1) ->
     session_request rt session reauthorization_get
       {| jar := jar_set "ssid" (SSID rt) "auth.riotgames.com" (jar st1);
          trace := trace st1 |}
     = (Raise e, st2) ->
     authenticate rt session st = (Raise e, st2)).
Proof.
  split; [apply authenticate_work|]. split; [|split].
  - intros e He. unfold authenticate, bind, session_request. rewrite He. reflexivity.
  - intros stored e He. unfold authenticate, bind, session_request. rewrite He.
    reflexivity.
  - intros r0 st1 e st2 H1 H2. unfold authenticate, bind. rewrite H1.
    unfold cookies_set at 1. rewrite H2. reflexivity.
Qed.

Lemma raise_for_status_spec (resp : Response) :
  (error_status (status_code resp) ->
     exists msg, raise_for_status resp = raise (HTTPError msg)) /\
  (~ error_status (status_code resp) -> raise_for_status resp = ret tt).
Proof.
  unfold raise_for_status, error_status.
  destruct (Z.leb_spec 400 (status_code resp)), (Z.ltb_spec (status_code resp) 500),
           (Z.leb_spec 500 (status_code resp)), (Z.ltb_spec (status_code resp) 600);
    cbn [andb]; split; intros Hcode; try lia; eauto.
Qed.

(** What the two resolvers do with the response to their request. *)
Lemma field_of_response (req : Request) (key : string) (st st' : State)
    (resp : Response) :
  session_request rt session req st = (Ok resp, st') ->
  let run :=
    (resp <- session_request rt session req ;;
     raise_for_status resp ;;;
     doc <- resp_json resp ;;
     subscript doc key) st in
  (error_status (status_code resp) -> exists msg, run = (Raise (HTTPError msg), st')) /\
  (~ error_status (status_code resp) ->
     (forall msg, resp_body resp = JsonInvalid msg ->
        run = (Raise (JSONDecodeError msg), st')) /\
     (forall items v,
        resp_body resp = JsonValue (PDict items) -> dict_lookup key items = Some v ->
        run = (Ok v, st')) /\
     (forall items,
        resp_body resp = JsonValue (PDict items) -> dict_lookup key items = None ->
        run = (Raise (KeyError key), st')) /\
     (forall doc,
        resp_body resp = JsonValue doc -> (forall items, doc <> PDict items) ->
        exists msg, run = (Raise (TypeError msg), st'))).
Proof.
  intros Hreq run. subst run. unfold bind. rewrite Hreq.
  destruct (raise_for_status_spec resp) as [Herr Hok]. split.
  - intros H. destruct (Herr H) as [msg ->]. exists msg. reflexivity.
  - intros H. rewrite (Hok H). unfold resp_json. cbn [ret].
    split; [|split; [|split]].
    + intros msg ->. reflexivity.
    + intros items v -> Hv. simpl. rewrite Hv. reflexivity.
    + intros items -> Hv. simpl. rewrite Hv. reflexivity.
    + intros doc -> Hdoc.
      destruct doc; try (eexists; reflexivity).
      exfalso. eapply Hdoc. reflexivity.
Qed.

(** X3: once its request is answered, [get_entitlements_token] raises an
    [HTTPError] for a status from 400 to 599, whatever the body holds; for
    any other status it returns what the document holds under
    [entitlements_token], of whatever type, and raises the decoding error
    for a body that is not JSON, [KeyError] for a dict without the key, and
    [TypeError] for a document that is not a dict. *)
Theorem get_entitlements_token_outcome (access_token : string) (st st' : State)
    (resp : Response) :
  session_request rt session (entitlements_post access_token) st = (Ok resp, st') ->
  let run := get_entitlements_token rt session access_token st in
  (error_status (status_code resp) -> exists msg, run = (Raise (HTTPError msg), st')) /\
  (~ error_status (status_code resp) ->
     (forall msg, resp_body resp = JsonInvalid msg ->
        run = (Raise (JSONDecodeError msg), st')) /\
     (forall items v,
        resp_body resp = JsonValue (PDict items) ->
        dict_lookup "entitlements_token" items = Some v ->
        run = (Ok v, st')) /\
     (forall items,
        resp_body resp = JsonValue (PDict items) ->
        dict_lookup "entitlements_token" items = None ->
        run = (Raise (KeyError "entitlements_token"), st')) /\
     (forall doc,
        resp_body resp = JsonValue doc -> (forall items, doc <> PDict items) ->
        exists msg, run = (Raise (TypeError msg), st'))).
Proof.
  intros Hreq. exact (field_of_response _ "entitlements_token" _ _ _ Hreq).
Qed.

(** X4: once its request is answered, [get_puuid] raises an [HTTPError] for
    a status from 400 to 599, whatever the body holds; for any other status
    it returns what the document holds under [sub], of whatever type, and
    raises the decoding error for a body that is not JSON, [KeyError] for a
    dict without the key, and [TypeError] for a document that is not a
    dict. *)
Theorem get_puuid_outcome (access_token : string) (st st' : State) (resp : Response) :
  session_request rt session (userinfo_get access_token) st = (Ok resp, st') ->
  let run := get_puuid rt session access_token st in
  (error_status (status_code resp) -> exists msg, run = (Raise (HTTPError msg), st')) /\
  (~ error_status (status_code resp) ->
     (forall msg, resp_body resp = JsonInvalid msg ->
        run = (Raise (JSONDecodeError msg), st')) /\
     (forall items v,
        resp_body resp = JsonValue (PDict items) -> dict_lookup "sub" items = Some v ->
        run = (Ok v, st')) /\
     (forall items,
        resp_body resp = JsonValue (PDict items) -> dict_lookup "sub" items = None ->
        run = (Raise (KeyError "sub"), st')) /\
     (forall doc,
        resp_body resp = JsonValue doc -> (forall items, doc <> PDict items) ->
        exists msg, run = (Raise (TypeError msg), st'))).
Proof.
  intros Hreq. exact (field_of_response _ "sub" _ _ _ Hreq).
Qed.

Variable access_token : string.
Variables entitlements_token puuid client_version : pyvalue.

Local Abbreviation hs := (storefront_headers access_token entitlements_token client_version).

(** X5: the fallback of [get_storefront] covers statuses, not failures of
    the transport: when the request of a variant raises, after the variants
    before it were refused, the exception is raised as it is and no later
    variant is tried. *)
Theorem get_storefront_transport_failure (before rest : list (string * string))
    (variant : string * string) (st st1 st2 : State) (e : exn) :
  storefront_variants rt puuid = (before ++ variant :: rest)%list ->
  refused rt session hs st before st1 ->
  session_request rt session (storefront_request hs variant) st1 = (Raise e, st2) ->
  get_storefront rt session access_token entitlements_token puuid client_version st
  = (Raise e, st2) /\
  trace st2 = (trace st ++ attempts session hs (before ++ [variant]))%list.
Proof.
  intros Hvs Href Hreq. split.
  - unfold get_storefront. rewrite Hvs, (storefront_loop_refused _ _ _ _ _ _ _ Href).
    simpl. unfold bind. rewrite Hreq. reflexivity.
  - rewrite (session_request_trace _ _ _ _ _ _ Hreq), (refused_trace _ _ _ _ _ _ Href).
    rewrite attempts_app, <- app_assoc. reflexivity.
Qed.

(** X6: in every configuration and whatever the network does,
    [get_client_version] returns a value, and the value is true in the sense
    of [bool]: never [None], an empty string or another empty value. *)
Theorem get_client_version_truthy (st : State) :
  exists version st',
    get_client_version rt session st = (Ok version, st') /\ truthy version = true.
Proof.
  unfold get_client_version.
  destruct (CLIENT_VERSION_OVERRIDE rt) as [v|] eqn:Hover; cbn [truthy_opt].
  - destruct (Str.is_empty v) eqn:Hv; cbn [negb].
    + exfalso. revert Hover. unfold CLIENT_VERSION_OVERRIDE.
      destruct (Str.is_empty (Str.strip _)) eqn:E; [discriminate|].
      intros H. injection H as <-. congruence.
    + eexists _, _. split; [reflexivity|]. simpl. now rewrite Hv.
  - destruct (live_client_version_spec rt session st) as (found & st' & Hrun & Hspec).
    unfold bind. rewrite Hrun. destruct found as [v|].
    + eexists _, _. split; [reflexivity|].
      destruct (proj1 (Hspec v) eq_refl) as (_ & _ & _ & _ & _ & _ & _ & _ & Ht).
      exact Ht.
    + eexists _, _. split; reflexivity.
Qed.

End Failures.

(** ** What a run reports *)

Section Reports.

Variable rt : Runtime.

Hypothesis credential : truthy_opt (SSID rt) = true.

(** The state in which [authenticate] starts, [main] having started in [st]. *)
Local Abbreviation created st := {| jar := jar st; trace := trace st ++ [SessionCreated] |}.
Local Abbreviation session := (configured_session rt).

Lemma fetch_authenticate_raises (st st' : State) (e : exn) :
  authenticate rt session (created st) = (Raise e, st') ->
  fetch rt st = (Raise e, st').
Proof.
  intros H. unfold fetch, bind. rewrite get_session_run, H. reflexivity.
Qed.

(** X7: with a credential, when the reauthorization call is answered with a
    status other than 301 and 303, the run prints the error prefix and the
    authentication failure with that status, and stops there; when it is
    answered with 301 or 303 and the [Location] header holds no token, the
    run prints the prefix and the token-extraction message. *)
Theorem main_reports_handshake (st st' : State) (resp : Response) :
  reauthorized rt session (created st) resp st' ->
  (~ redirect (status_code resp) ->
     main rt st =
       (Ok tt,
        {| jar := jar st';
           trace := trace st'
                    ++ [Printed ("エラー: 認証失敗 (status: "
                                 ++ Str.format_int (status_code resp) ++ ")")] |})) /\
  (redirect (status_code resp) ->
   Re.search (headers_get "Location" "" (resp_headers resp)) = None ->
     main rt st =
       (Ok tt,
        {| jar := jar st';
           trace := trace st' ++ [Printed "エラー: アクセストークン取得失敗"] |})).
Proof.
  intros H. pose proof (authenticate_reauthorized _ _ _ _ _ H) as Hrun.
  rewrite (main_run rt st credential). split.
  - intros Hcode.
    destruct ((status_code resp =? 301) || (status_code resp =? 303)) eqn:E.
    { apply redirect_test in E. contradiction. }
    cbn [negb] in Hrun. rewrite (fetch_authenticate_raises _ _ _ Hrun). reflexivity.
  - intros Hcode Hnone. apply redirect_test in Hcode.
    rewrite Hcode, Hnone in Hrun. cbn [negb] in Hrun.
    rewrite (fetch_authenticate_raises _ _ _ Hrun). reflexivity.
Qed.


Variable access_token : string.
Variables entitlements_token puuid client_version : pyvalue.

Local Abbreviation hs := (storefront_headers access_token entitlements_token client_version).


(** X10: with a credential, when every step before the storefront fetch
    succeeds and the three variants are all answered with a status other
    than 200, the run prints the error prefix and the storefront-retrieval
    message. *)
Theorem main_reports_exhaustion (st0 st st' : State) :
  prepared rt st0 session access_token entitlements_token puuid client_version st ->
  refused rt session hs st (storefront_variants rt puuid) st' ->
  main rt st0 =
    (Ok tt, {| jar := jar st'; trace := trace st' ++ [Printed "エラー: ストアフロント取得失敗"] |}).
Proof.
  intros Hprep Href.
  rewrite (main_run rt st0 credential), (fetch_prepared _ _ _ _ _ _ _ _ Hprep).
  unfold get_storefront.
  rewrite <- (app_nil_r (storefront_variants rt puuid)).
  rewrite (storefront_loop_refused _ _ _ _ _ _ _ Href). reflexivity.
Qed.

End Reports.

(** ** Trimming and the override *)

Lemma rev_append_spec (s acc : string) : Str.rev_append s acc = Str.rev s ++ acc.
Proof.
  unfold Str.rev. revert acc. induction s as [|c s IH]; intros acc; simpl.
  - reflexivity.
  - rewrite (IH (String c acc)), (IH (String c "")), append_assoc. reflexivity.
Qed.

Lemma rev_cons (c : ascii) (s : string) : Str.rev (String c s) = Str.rev s ++ String c "".
Proof. unfold Str.rev at 1. simpl. apply rev_append_spec. Qed.

Lemma rev_app (a b : string) : Str.rev (a ++ b) = Str.rev b ++ Str.rev a.
Proof.
  induction a as [|x a IH]; simpl.
  - now rewrite append_nil_r.
  - rewrite !rev_cons, IH, append_assoc. reflexivity.
Qed.

Lemma rev_involutive (s : string) : Str.rev (Str.rev s) = s.
Proof.
  induction s as [|c s IH].
  - reflexivity.
  - rewrite rev_cons, rev_app, IH. reflexivity.
Qed.

(** One turn of [drop_space]: the string has no white space at its head and
    is returned, or a character is dropped and the rest is treated. *)
Lemma drop_space_step (backwards : bool) (s : string) :
  Str.drop_space backwards s = s \/
  exists dropped s',
    s = dropped ++ s' /\
    (0 < String.length dropped)%nat /\
    Str.drop_space backwards s = Str.drop_space backwards s'.
Proof.
  destruct s as [|a s1]; [now left|]. simpl.
  destruct (Str.space1 a).
  { right. exists (String a ""), s1. simpl. repeat split. lia. }
  destruct s1 as [|b s2]; [now left|].
  destruct (if backwards then Str.space2 b a else Str.space2 a b).
  { right. exists (String a (String b "")), s2. simpl. repeat split. lia. }
  destruct s2 as [|c s3]; [now left|].
  destruct (if backwards then Str.space3 c b a else Str.space3 a b c).
  { right. exists (String a (String b (String c ""))), s3. simpl. repeat split. lia. }
  now left.
Qed.

Lemma drop_space_measure (backwards : bool) (n : nat) (s : string) :
  (String.length s <= n)%nat ->
  (exists dropped, s = dropped ++ Str.drop_space backwards s) /\
  Str.drop_space backwards (Str.drop_space backwards s) = Str.drop_space backwards s.
Proof.
  revert s. induction n as [|n IH]; intros s Hlen.
  - destruct s; [|simpl in Hlen; lia]. split; [now exists ""|reflexivity].
  - destruct (drop_space_step backwards s) as [Hfix|(dropped & s' & Hs & Hd & Hstep)].
    + rewrite !Hfix. split; [now exists ""|reflexivity].
    + assert (Hlen' : (String.length s' <= n)%nat).
      { rewrite Hs, length_append in Hlen. lia. }
      destruct (IH s' Hlen') as [[dropped' Hsuffix] Hidem].
      rewrite Hstep. split; [|exact Hidem].
      exists (dropped ++ dropped'). rewrite append_assoc, <- Hsuffix. exact Hs.
Qed.

(** What [drop_space] returns is the end of its argument. *)
Lemma drop_space_suffix (backwards : bool) (s : string) :
  exists dropped, s = dropped ++ Str.drop_space backwards s.
Proof. exact (proj1 (drop_space_measure backwards _ s (le_n _))). Qed.

Lemma drop_space_idempotent (backwards : bool) (s : string) :
  Str.drop_space backwards (Str.drop_space backwards s) = Str.drop_space backwards s.
Proof. exact (proj2 (drop_space_measure backwards _ s (le_n _))). Qed.

Lemma drop_space_shorter (backwards : bool) (s : string) :
  (String.length (Str.drop_space backwards s) <= String.length s)%nat.
Proof.
  destruct (drop_space_suffix backwards s) as [dropped H].
  rewrite H at 2. rewrite length_append. lia.
Qed.

(** A string with no white space at its head keeps none when it is cut. *)
Lemma drop_space_prefix (u w : string) :
  Str.drop_space false (u ++ w) = u ++ w -> Str.drop_space false u = u.
Proof.
  assert (Hshort : forall x y, Str.drop_space false x = y ->
                               (String.length x < String.length y)%nat -> False).
  { intros x y <- Hlt. pose proof (drop_space_shorter false x). lia. }
  destruct u as [|a u1]; [reflexivity|]. simpl.
  destruct (Str.space1 a).
  { intros H. exfalso. apply (Hshort _ _ H). simpl. lia. }
  destruct u1 as [|b u2]; [reflexivity|]. simpl.
  destruct (Str.space2 a b).
  { intros H. exfalso. apply (Hshort _ _ H). simpl. lia. }
  destruct u2 as [|c u3]; [reflexivity|]. simpl.
  destruct (Str.space3 a b c).
  { intros H. exfalso. apply (Hshort _ _ H). simpl. lia. }
  reflexivity.
Qed.

(** [strip] cuts its argument at both ends. *)
Lemma strip_inside (s : string) :
  exists left right,
    s = left ++ Str.strip s ++ right /\
    Str.drop_space false s = Str.strip s ++ right.
Proof.
  unfold Str.strip, Str.rstrip, Str.lstrip.
  destruct (drop_space_suffix false s) as [left Hleft].
  destruct (drop_space_suffix true (Str.rev (Str.drop_space false s))) as [gone Hgone].
  exists left, (Str.rev gone).
  assert (Ht : Str.drop_space false s
               = Str.rev (Str.drop_space true (Str.rev (Str.drop_space false s)))
                 ++ Str.rev gone).
  { rewrite <- rev_app, <- Hgone, rev_involutive. reflexivity. }
  split; [|exact Ht].
  rewrite <- Ht. exact Hleft.
Qed.

Lemma strip_idempotent (s : string) : Str.strip (Str.strip s) = Str.strip s.
Proof.
  destruct (strip_inside s) as (left & right & _ & Ht).
  assert (Hhead : Str.drop_space false (Str.strip s) = Str.strip s).
  { apply (drop_space_prefix _ right). rewrite <- Ht. apply drop_space_idempotent. }
  unfold Str.strip at 1. unfold Str.lstrip, Str.rstrip. rewrite Hhead.
  unfold Str.strip, Str.rstrip, Str.lstrip.
  rewrite rev_involutive, drop_space_idempotent. reflexivity.
Qed.

(** X11: the override line 11 stores, when there is one, is not empty, has
    no white space left to trim at either end, and is a part of the value of
    the [CLIENT_VERSION] variable; when the variable is unset or trims to
    nothing there is no override. *)
Theorem override_trimmed (rt : Runtime) :
  (forall v,
     CLIENT_VERSION_OVERRIDE rt = Some v ->
     v <> "" /\
     Str.strip v = v /\
     exists configured left right,
       getenv rt "CLIENT_VERSION" = Some configured /\
       configured = left ++ v ++ right) /\
  (getenv rt "CLIENT_VERSION" = None -> CLIENT_VERSION_OVERRIDE rt = None) /\
  (forall configured,
     getenv rt "CLIENT_VERSION" = Some configured -> Str.strip configured = "" ->
     CLIENT_VERSION_OVERRIDE rt = None).
Proof.
  unfold CLIENT_VERSION_OVERRIDE. repeat split.
  - destruct (Str.is_empty _) eqn:E; [discriminate|].
    injection H as <-. now apply is_empty_false.
  - destruct (Str.is_empty _) eqn:E; [discriminate|].
    injection H as <-. apply strip_idempotent.
  - destruct (getenv rt "CLIENT_VERSION") as [configured|] eqn:Henv.
    + destruct (Str.is_empty _) eqn:E; [discriminate|].
      injection H as <-.
      destruct (strip_inside configured) as (left & right & Hin & _).
      exists configured, left, right. auto.
    + discriminate.
  - intros ->. reflexivity.
  - intros configured -> ->. reflexivity.
Qed.

Section MissingField.

Variable rt : Runtime.

Hypothesis credential : truthy_opt (SSID rt) = true.

Local Abbreviation created st := {| jar := jar st; trace := trace st ++ [SessionCreated] |}.
Local Abbreviation session := (configured_session rt).

(** X12: with a credential, when the handshake succeeds and the entitlement
    endpoint answers, with a status that is not an error, a JSON object
    without the [entitlements_token] key, the run prints the error prefix
    followed by the name of the key between single quotes, and stops
    there. *)
Theorem main_reports_missing_token (st sb sc : State) (access_token : string)
    (resp : Response) (items : list (string * pyvalue)) :
  authenticate rt session (created st) = (Ok access_token, sb) ->
  session_request rt session (entitlements_post access_token) sb = (Ok resp, sc) ->
  ~ error_status (status_code resp) ->
  resp_body resp = JsonValue (PDict items) ->
  dict_lookup "entitlements_token" items = None ->
  main rt st =
    (Ok tt, {| jar := jar sc; trace := trace sc ++ [Printed "エラー: 'entitlements_token'"] |}).
Proof.
  intros Hauth Hreq Hcode Hbody Hkey.
  destruct (field_of_response rt session _ "entitlements_token" _ _ _ Hreq)
    as [_ Hok].
  destruct (Hok Hcode) as (_ & _ & Hmissing & _).
  specialize (Hmissing items Hbody Hkey). cbv zeta in Hmissing.
  rewrite (main_run rt st credential).
  unfold fetch, bind at 1. rewrite get_session_run.
  unfold bind at 1. rewrite Hauth.
  unfold bind at 1.
  change (get_entitlements_token rt session access_token sb)
    with ((resp <- session_request rt session (entitlements_post access_token) ;;
           raise_for_status resp ;;;
           doc <- resp_json resp ;;
           subscript doc "entitlements_token") sb).
  rewrite Hmissing. reflexivity.
Qed.

End MissingField.

(** ** The further properties at work *)

Lemma authenticate_requests_witness :
  authenticate Demo.offline Demo.session initial
  = (Raise (RequestException "connection refused"),
     {| jar := []; trace := [Sent Demo.session authorization_post] |}) /\
  authenticate Demo.lost_after_redirect Demo.session initial
  = (Raise (RequestException "connection refused"),
     {| jar := [mkCookie "tdid" "t1" "auth.riotgames.com"];
        trace := [Sent Demo.session authorization_post] |}).
Proof.
  split.
  - exact (proj1 (proj2 (authenticate_requests Demo.offline Demo.session initial))
             (RequestException "connection refused") eq_refl).
  - exact (proj1 (proj2 (proj2 (authenticate_requests Demo.lost_after_redirect
                                  Demo.session initial)))
             [mkCookie "tdid" "t1" "auth.riotgames.com"]
             (RequestException "connection refused") eq_refl).
Defined.

Lemma get_entitlements_token_outcome_witness :
  (exists msg st',
     get_entitlements_token
       (Demo.entitled
          (Demo.answer 403 [] (JsonValue (PDict [("entitlements_token", PStr "E1")]))))
       Demo.session "ABC123" initial
     = (Raise (HTTPError msg), st')) /\
  (exists st',
     get_entitlements_token
       (Demo.entitled
          (Demo.answer 302 [] (JsonValue (PDict [("entitlements_token", PStr "E1")]))))
       Demo.session "ABC123" initial
     = (Ok (PStr "E1"), st')).
Proof.
  split.
  - match goal with
    | |- exists _ _, get_entitlements_token ?rt _ _ _ = _ =>
        eassert (Hreq : session_request rt Demo.session
                          (entitlements_post "ABC123") initial = (Ok _, _))
          by reflexivity
    end.
    destruct (proj1 (get_entitlements_token_outcome _ _ _ _ _ _ Hreq)) as [msg Hrun].
    + unfold error_status. simpl. lia.
    + exists msg. eexists. exact Hrun.
  - match goal with
    | |- exists _, get_entitlements_token ?rt _ _ _ = _ =>
        eassert (Hreq : session_request rt Demo.session
                          (entitlements_post "ABC123") initial = (Ok _, _))
          by reflexivity
    end.
    eexists.
    refine (proj1 (proj2 (proj2 (get_entitlements_token_outcome _ _ _ _ _ _ Hreq) _))
              _ _ eq_refl eq_refl).
    unfold error_status. simpl. lia.
Defined.

Lemma get_puuid_outcome_witness :
  (exists st',
     get_puuid (Demo.identified (Demo.answer 200 [] (JsonValue (PDict [("sub", PNone)]))))
       Demo.session "ABC123" initial
     = (Ok PNone, st')) /\
  (exists st',
     get_puuid (Demo.identified (Demo.answer 200 [] (JsonValue (PDict []))))
       Demo.session "ABC123" initial
     = (Raise (KeyError "sub"), st')).
Proof.
  split.
  - match goal with
    | |- exists _, get_puuid ?rt _ _ _ = _ =>
        eassert (Hreq : session_request rt Demo.session
                          (userinfo_get "ABC123") initial = (Ok _, _))
          by reflexivity
    end.
    eexists.
    refine (proj1 (proj2 (proj2 (get_puuid_outcome _ _ _ _ _ _ Hreq) _))
              _ _ eq_refl eq_refl).
    unfold error_status. simpl. lia.
  - match goal with
    | |- exists _, get_puuid ?rt _ _ _ = _ =>
        eassert (Hreq : session_request rt Demo.session
                          (userinfo_get "ABC123") initial = (Ok _, _))
          by reflexivity
    end.
    eexists.
    refine (proj1 (proj2 (proj2 (proj2 (get_puuid_outcome _ _ _ _ _ _ Hreq) _)))
              _ eq_refl eq_refl).
    unfold error_status. simpl. lia.
Defined.

Lemma get_storefront_transport_failure_witness :
  exists st',
    get_storefront Demo.second_times_out Demo.session "T1" (PStr "E1") (PStr "P1")
      (PStr "V1") initial
    = (Raise (RequestException "Read timed out."), st') /\
    map url (requests (trace st')) = [Demo.store "v2"; Demo.store "v3"].
Proof.
  pose (hs := storefront_headers "T1" (PStr "E1") (PStr "V1")).
  eassert (Href : refused Demo.second_times_out Demo.session hs initial
                    [("GET", Demo.store "v2")] _).
  { eapply refused_cons; [reflexivity | discriminate | apply refused_nil]. }
  match type of Href with
  | refused _ _ _ _ _ ?st1 =>
      eassert (Hreq : session_request Demo.second_times_out Demo.session
                        (storefront_request hs ("POST", Demo.store "v3")) st1
                      = (Raise _, _)) by reflexivity
  end.
  destruct (get_storefront_transport_failure Demo.second_times_out Demo.session
              "T1" (PStr "E1") (PStr "P1") (PStr "V1")
              [("GET", Demo.store "v2")] [("GET", Demo.store "v1")]
              ("POST", Demo.store "v3") initial _ _ _ eq_refl Href Hreq)
    as [Hrun Htrace].
  eexists. split; [exact Hrun|]. rewrite Htrace. reflexivity.
Defined.

Lemma main_reports_handshake_witness :
  exists st',
    main Demo.forbidden initial = (Ok tt, st') /\
    printed (trace st') = ["エラー: 認証失敗 (status: 403)"].
Proof.
  eassert (H : reauthorized Demo.forbidden (configured_session Demo.forbidden)
                 {| jar := []; trace := [SessionCreated] |} _ _) by run_handshake.
  eexists. split.
  - refine (proj1 (main_reports_handshake Demo.forbidden eq_refl initial _ _ H) _).
    intros [E|E]; discriminate E.
  - reflexivity.
Defined.


Ltac run_steps := unfold prepared; do 4 eexists; repeat split; reflexivity.


Lemma main_reports_exhaustion_witness :
  exists st',
    main Demo.exhausted initial = (Ok tt, st') /\
    printed (trace st') = ["エラー: ストアフロント取得失敗"] /\
    List.length (requests (trace st')) = 7%nat.
Proof.
  eassert (Hprep : prepared Demo.exhausted initial (configured_session Demo.exhausted)
                     _ _ _ _ _) by run_steps.
  match type of Hprep with
  | prepared _ _ ?session ?access_token ?entitlements_token ?puuid ?client_version ?st =>
      eassert (Href : refused Demo.exhausted session
                        (storefront_headers access_token entitlements_token
                           client_version)
                        st (storefront_variants Demo.exhausted puuid) _);
      [ eapply refused_cons; [reflexivity | discriminate |];
        eapply refused_cons; [reflexivity | discriminate |];
        eapply refused_cons; [reflexivity | discriminate |];
        apply refused_nil
      | pose proof (main_reports_exhaustion Demo.exhausted eq_refl
                      access_token entitlements_token puuid client_version
                      initial st _ Hprep Href) as Hmain ]
  end.
  eexists. split; [exact Hmain|]. split; reflexivity.
Defined.

Lemma override_trimmed_witness :
  CLIENT_VERSION_OVERRIDE (Demo.overridden " custom-version ") = Some "custom-version" /\
  Str.strip "custom-version" = "custom-version".
Proof.
  split; [reflexivity|].
  exact (proj1 (proj2 (proj1 (override_trimmed (Demo.overridden " custom-version "))
                         "custom-version" eq_refl))).
Defined.

Lemma main_reports_missing_token_witness :
  exists st',
    main (Demo.entitled (Demo.answer 200 [] (JsonValue (PDict [("error", PStr "denied")]))))
      initial
    = (Ok tt, st') /\
    printed (trace st') = ["エラー: 'entitlements_token'"].
Proof.
  set (rt := Demo.entitled _).
  eassert (Hauth : authenticate rt (configured_session rt)
                     {| jar := []; trace := [SessionCreated] |} = (Ok _, _))
    by reflexivity.
  match type of Hauth with
  | _ = (Ok ?access_token, ?sb) =>
      eassert (Hreq : session_request rt (configured_session rt)
                        (entitlements_post access_token) sb = (Ok _, _)) by reflexivity
  end.
  eexists. split.
  - refine (main_reports_missing_token rt eq_refl initial _ _ _ _ _ Hauth Hreq _
              eq_refl eq_refl).
    unfold error_status. simpl. lia.
  - reflexivity.
Defined.
